(** * ZakatChain: a shallow embedding of [blockchain.py]

    The ledger of the repository is a Python class [ZakatBlockchain] that owns
    a list of [Block]s, a list of pending [Transaction]s and two dictionaries
    (balances and node records).  Every method is embedded as a function on an
    explicit ledger state.

    - Python [float] is IEEE binary64: amounts are primitive floats, with the
      literals of the source ([0.025], [10.0], [200.0]) rounded the same way.
    - a [dict] keyed by strings is a [gmap string _]; no method of the core
      iterates over a dictionary, so insertion order is not modelled.
    - [datetime.now()] is the environment: every clock reading a method makes
      is an argument of its embedding.
    - [hashlib.sha256] and the [repr] of strings and floats (used by
      [str(dict)]) belong to the Python runtime, not to the repository; they
      are the fields of the class [PyBuiltins].
    - the proof-of-work loop of [Block.mine_block] need not terminate, so its
      embedding takes fuel. *)

From Stdlib Require Import ZArith List String Ascii Floats DecimalString Lia Bool.
From stdpp Require Import base option list gmap strings.

Local Open Scope Z_scope.
#[local] Set Warnings "-inexact-float".

(** ** The Python runtime *)

Class PyBuiltins := {
  (** [hashlib.sha256(s.encode()).hexdigest()] *)
  sha256_hexdigest : string -> string;
  (** [repr(s)] for a [str] *)
  repr_str : string -> string;
  (** [repr(x)] for a [float] *)
  repr_float : float -> string
}.

(** [str(n)] for an [int]. *)
Definition str_int (n : Z) : string := NilZero.string_of_int (Z.to_int n).

(** ["0" * n] *)
Fixpoint str_repeat_zero (n : nat) : string :=
  match n with
  | O => EmptyString
  | S n' => String "0"%char (str_repeat_zero n')
  end.

(** [s[:n]] for [n >= 0]: the first [n] characters, fewer when [s] is short. *)
Definition str_prefix (n : nat) (s : string) : string := String.substring 0 n s.

(** What a call can do besides returning. *)
Inductive outcome (A : Type) : Type :=
| Returns (a : A)
| IndexError
| OutOfFuel.
Arguments Returns {A} a.
Arguments IndexError {A}.
Arguments OutOfFuel {A}.

(** ** class Transaction *)

Module Transaction.

Record t := mk {
  sender : string;
  receiver : string;
  amount : float;
  zakat_amount : float;
  transaction_type : string;
  timestamp : string
}.

(** [Transaction.__init__]; [timestamp or datetime.now()...] takes the clock
    when the argument is [None] or the empty string. *)
Definition init (sender receiver : string) (amount zakat_amount : float)
    (transaction_type : string) (timestamp : option string) (now : string) : t :=
  mk sender receiver amount zakat_amount transaction_type
     (match timestamp with
      | Some (String c s) => String c s
      | _ => now
      end).

(** [str(tx.to_dict())]: the dictionary printed in insertion order. *)
Definition to_dict_str {py : PyBuiltins} (tx : t) : string :=
  "{'sender': " +:+ repr_str (sender tx) +:+
  ", 'receiver': " +:+ repr_str (receiver tx) +:+
  ", 'amount': " +:+ repr_float (amount tx) +:+
  ", 'zakat_amount': " +:+ repr_float (zakat_amount tx) +:+
  ", 'transaction_type': " +:+ repr_str (transaction_type tx) +:+
  ", 'timestamp': " +:+ repr_str (timestamp tx) +:+ "}".

End Transaction.

(** ** class Block *)

Module Block.

Record t := mk {
  index : Z;
  transactions : list Transaction.t;
  previous_hash : string;
  roll_number : string;
  timestamp : string;
  nonce : Z;
  hash : string
}.

Definition set_nonce (n : Z) (b : t) : t :=
  mk (index b) (transactions b) (previous_hash b) (roll_number b)
     (timestamp b) n (hash b).

Definition set_hash (h : string) (b : t) : t :=
  mk (index b) (transactions b) (previous_hash b) (roll_number b)
     (timestamp b) (nonce b) h.

Definition set_transactions (txs : list Transaction.t) (b : t) : t :=
  mk (index b) txs (previous_hash b) (roll_number b)
     (timestamp b) (nonce b) (hash b).

Section WithRuntime.
Context {py : PyBuiltins}.

(** The loop building [transactions_str]. *)
Definition transactions_str (txs : list Transaction.t) : string :=
  fold_left (fun acc tx => acc +:+ Transaction.to_dict_str tx) txs EmptyString.

Definition block_string (b : t) : string :=
  roll_number b +:+ ":" +:+
  str_int (index b) +:+ ":" +:+
  transactions_str (transactions b) +:+ ":" +:+
  previous_hash b +:+ ":" +:+
  timestamp b +:+ ":" +:+
  str_int (nonce b).

Definition calculate_hash (b : t) : string :=
  sha256_hexdigest (block_string b).

(** [Block.__init__]: nonce 0, hash computed from the fields just set. *)
Definition init (index : Z) (transactions : list Transaction.t)
    (previous_hash roll_number now : string) : t :=
  let b := mk index transactions previous_hash roll_number now 0 EmptyString in
  set_hash (calculate_hash b) b.

(** One turn of the body of the [while] loop. *)
Definition mine_step (b : t) : t :=
  let b1 := set_nonce (nonce b + 1) b in
  set_hash (calculate_hash b1) b1.

(** The loop test [self.hash[:difficulty] != target]. *)
Definition unsolved (difficulty : nat) (b : t) : bool :=
  negb (String.eqb (str_prefix difficulty (hash b)) (str_repeat_zero difficulty)).

(** [Block.mine_block]; [None] when the fuel runs out before the loop
    exits. *)
Fixpoint mine_block (fuel : nat) (b : t) (difficulty : nat) : option t :=
  if unsolved difficulty b then
    match fuel with
    | O => None
    | S fuel' => mine_block fuel' (mine_step b) difficulty
    end
  else Some b.

End WithRuntime.

End Block.

(** ** Node records of the account registry *)

Module Node.

Record t := mk {
  roll_number : string;
  balance : float;
  joined_at : string;
  transactions_count : Z;
  total_zakat_paid : float;
  total_zakat_received : float;
  is_active : bool
}.

End Node.

(** ** class ZakatBlockchain *)

Record Ledger := mkLedger {
  creator_roll_number : string;
  chain : list Block.t;
  pending_transactions : list Transaction.t;
  balances : gmap string float;
  nodes : gmap string Node.t
}.

(** [self.zakat_rate] and [self.mining_reward] are assigned once, in
    [__init__], and no method writes them. *)
Definition zakat_rate : float := 0.025%float.
Definition mining_reward : float := 10%float.

(** The default of [mine_block]'s [difficulty]; [mine_pending_transactions]
    calls it without argument. *)
Definition default_difficulty : nat := 2.

Definition Zakat_Fund : string := "Zakat_Fund".

Definition set_chain (c : list Block.t) (st : Ledger) : Ledger :=
  mkLedger (creator_roll_number st) c (pending_transactions st) (balances st) (nodes st).

Definition set_pending (p : list Transaction.t) (st : Ledger) : Ledger :=
  mkLedger (creator_roll_number st) (chain st) p (balances st) (nodes st).

Definition set_balances (b : gmap string float) (st : Ledger) : Ledger :=
  mkLedger (creator_roll_number st) (chain st) (pending_transactions st) b (nodes st).

Definition set_nodes (n : gmap string Node.t) (st : Ledger) : Ledger :=
  mkLedger (creator_roll_number st) (chain st) (pending_transactions st) (balances st) n.

(** [self.balances.get(address, 0.0)] *)
Definition get_balance (st : Ledger) (address : string) : float :=
  default 0%float (balances st !! address).

Definition calculate_zakat (balance : float) : float :=
  (balance * zakat_rate)%float.

(** [add_node]: the registry entry is written whenever the name is new to the
    registry; the balance only when the name is new to the balances. *)
Definition add_node (st : Ledger) (roll_number : string) (initial_balance : float)
    (now : string) : bool * Ledger :=
  match nodes st !! roll_number with
  | Some _ => (false, st)
  | None =>
      let st1 :=
        set_nodes (<[roll_number :=
                      Node.mk roll_number initial_balance now 0 0%float 0%float true]>
                     (nodes st)) st in
      let st2 :=
        match balances st1 !! roll_number with
        | None => set_balances (<[roll_number := initial_balance]> (balances st1)) st1
        | Some _ => st1
        end in
      (true, st2)
  end.

Definition update_node_stats (st : Ledger) (roll_number : string)
    (zakat_paid zakat_received : float) : Ledger :=
  match nodes st !! roll_number with
  | Some n =>
      set_nodes
        (<[roll_number :=
            Node.mk (Node.roll_number n)
                    (get_balance st roll_number)
                    (Node.joined_at n)
                    (Node.transactions_count n + 1)
                    (Node.total_zakat_paid n + zakat_paid)%float
                    (Node.total_zakat_received n + zakat_received)%float
                    (Node.is_active n)]> (nodes st)) st
  | None => st
  end.

Definition get_latest_block (st : Ledger) : option Block.t := last (chain st).

(** [validate_transaction]: one comparison, the same for every sender. *)
Definition validate_transaction (st : Ledger) (transaction : Transaction.t) : bool :=
  let sender_balance := get_balance st (Transaction.sender transaction) in
  let total_amount :=
    (Transaction.amount transaction + Transaction.zakat_amount transaction)%float in
  if (sender_balance <? total_amount)%float then false else true.

Definition add_transaction (st : Ledger) (transaction : Transaction.t) : bool * Ledger :=
  if negb (validate_transaction st transaction) then (false, st)
  else (true, set_pending (pending_transactions st ++ [transaction]) st).

(** The entry [create_zakat_transaction] builds when the levy is positive. *)
Definition zakat_entry (st : Ledger) (from_address to_address now : string) : Transaction.t :=
  let current_balance := get_balance st from_address in
  let zakat_amount := calculate_zakat current_balance in
  Transaction.init from_address to_address 0%float zakat_amount "zakat" None now.

Definition create_zakat_transaction (st : Ledger) (from_address to_address now : string)
    : bool * Ledger :=
  let current_balance := get_balance st from_address in
  let zakat_amount := calculate_zakat current_balance in
  if (0 <? zakat_amount)%float then
    add_transaction st (zakat_entry st from_address to_address now)
  else (false, st).

(** The entry [create_transfer_transaction] builds on every call. *)
Definition transfer_entry (st : Ledger) (from_address to_address : string)
    (amount : float) (now : string) : Transaction.t :=
  let current_balance := get_balance st from_address in
  let zakat_amount := calculate_zakat current_balance in
  Transaction.init from_address to_address amount zakat_amount "transfer" None now.

Definition create_transfer_transaction (st : Ledger) (from_address to_address : string)
    (amount : float) (now : string) : bool * Ledger :=
  add_transaction st (transfer_entry st from_address to_address amount now).

(** The body of the [for] loop of [update_balances]. *)
Definition update_balances_step (st : Ledger) (transaction : Transaction.t) : Ledger :=
  let sender := Transaction.sender transaction in
  let receiver := Transaction.receiver transaction in
  let st1 :=
    if negb (String.eqb sender "System") && negb (String.eqb sender "Genesis") then
      let sa :=
        match balances st !! sender with
        | None => set_balances (<[sender := 0%float]> (balances st)) st
        | Some _ => st
        end in
      let total_deduction :=
        (Transaction.amount transaction + Transaction.zakat_amount transaction)%float in
      let sb :=
        set_balances
          (<[sender := (get_balance sa sender - total_deduction)%float]> (balances sa)) sa in
      update_node_stats sb sender (Transaction.zakat_amount transaction) 0%float
    else st in
  let st2 :=
    match balances st1 !! receiver with
    | None => set_balances (<[receiver := 0%float]> (balances st1)) st1
    | Some _ => st1
    end in
  let st3 :=
    set_balances
      (<[receiver := (get_balance st2 receiver + Transaction.amount transaction)%float]>
         (balances st2)) st2 in
  if String.eqb (Transaction.transaction_type transaction) "zakat"
     && negb (String.eqb receiver Zakat_Fund)
  then update_node_stats st3 receiver 0%float (Transaction.zakat_amount transaction)
  else st3.

Definition update_balances (st : Ledger) (block : Block.t) : Ledger :=
  fold_left update_balances_step (Block.transactions block) st.

Section WithRuntime.
Context {py : PyBuiltins}.

(** The genesis entry carries the literal [200.0]. *)
Definition create_genesis_block (st : Ledger) (now_tx now_block : string) : Ledger :=
  let genesis_transaction :=
    Transaction.init "Genesis" (creator_roll_number st) 200%float 0%float
                     "genesis" None now_tx in
  let genesis_block :=
    Block.init 0 [genesis_transaction] "0" (creator_roll_number st) now_block in
  set_chain (chain st ++ [genesis_block]) st.

(** [ZakatBlockchain.__init__] *)
Definition new_ledger (creator_roll_number : string) (initial_balance : float)
    (now_node now_tx now_block : string) : Ledger :=
  let st0 :=
    mkLedger creator_roll_number [] []
             (<[creator_roll_number := initial_balance]> ∅) ∅ in
  let st1 := snd (add_node st0 creator_roll_number initial_balance now_node) in
  create_genesis_block st1 now_tx now_block.

(** The reward entry of a seal. *)
Definition reward_transaction (mining_address now : string) : Transaction.t :=
  Transaction.init "System" mining_address mining_reward 0%float
                   "mining_reward" None now.

(** [mine_pending_transactions].  The block holds the very list object of
    the pending entries, which the last statement replaces by a fresh list,
    so the block keeps the entries. *)
Definition mine_pending_transactions (fuel : nat) (st : Ledger)
    (mining_address now_tx now_block : string) : outcome Ledger :=
  let st1 :=
    set_pending (pending_transactions st ++ [reward_transaction mining_address now_tx]) st in
  match get_latest_block st1 with
  | None => IndexError
  | Some latest =>
      let block :=
        Block.init (Z.of_nat (length (chain st1))) (pending_transactions st1)
                   (Block.hash latest) (creator_roll_number st1) now_block in
      match Block.mine_block fuel block default_difficulty with
      | None => OutOfFuel
      | Some mined =>
          let st2 := set_chain (chain st1 ++ [mined]) st1 in
          let st3 := update_balances st2 mined in
          Returns (set_pending [] st3)
      end
  end.

(** The [for i in range(1, len(self.chain))] loop of [validate_chain],
    [n] turns starting at index [i].  Both lookups succeed for
    [1 <= i < len(self.chain)], the only indices the loop visits. *)
Fixpoint validate_loop (c : list Block.t) (i : nat) (n : nat) : bool :=
  match n with
  | O => true
  | S n' =>
      match c !! i, c !! (i - 1)%nat with
      | Some current_block, Some previous_block =>
          if negb (String.eqb (Block.hash current_block)
                              (Block.calculate_hash current_block))
          then false
          else if negb (String.eqb (Block.previous_hash current_block)
                                   (Block.hash previous_block))
          then false
          else validate_loop c (S i) n'
      | _, _ => false
      end
  end.

Definition validate_chain (st : Ledger) : bool :=
  validate_loop (chain st) 1 (length (chain st) - 1).

End WithRuntime.

(** ** The public operations as commands

    The operations a caller of the core has: registering an account, the two
    entry-creating methods, [add_transaction] with an entry built by the
    caller (the gift path), and sealing.  Construction is the start state. *)

Inductive command : Type :=
| AddNode (roll_number : string) (initial_balance : float) (now : string)
| CreateZakat (from_address to_address now : string)
| CreateTransfer (from_address to_address : string) (amount : float) (now : string)
| AddTransaction (transaction : Transaction.t)
| Mine (fuel : nat) (mining_address now_tx now_block : string).

Section Commands.
Context {py : PyBuiltins}.

Definition exec (st : Ledger) (c : command) : outcome Ledger :=
  match c with
  | AddNode r b now => Returns (snd (add_node st r b now))
  | CreateZakat f t now => Returns (snd (create_zakat_transaction st f t now))
  | CreateTransfer f t a now => Returns (snd (create_transfer_transaction st f t a now))
  | AddTransaction tx => Returns (snd (add_transaction st tx))
  | Mine fuel m now_tx now_block => mine_pending_transactions fuel st m now_tx now_block
  end.

Fixpoint run (st : Ledger) (cs : list command) : outcome Ledger :=
  match cs with
  | [] => Returns st
  | c :: cs' =>
      match exec st c with
      | Returns st' => run st' cs'
      | IndexError => IndexError
      | OutOfFuel => OutOfFuel
      end
  end.

(** A ledger state is reachable when some construction followed by some
    commands, all of which return, ends in it. *)
Definition reachable (st : Ledger) : Prop :=
  exists creator initial_balance now_node now_tx now_block cs,
    run (new_ledger creator initial_balance now_node now_tx now_block) cs = Returns st.

(** The proof-of-work test a sealed block passes. *)
Definition sealed (b : Block.t) : Prop :=
  str_prefix default_difficulty (Block.hash b) = str_repeat_zero default_difficulty.

(** Every block sits at its index, and all but the first are sealed. *)
Definition chain_inv (st : Ledger) : Prop :=
  chain st <> [] /\
  forall (i : nat) (b : Block.t),
    chain st !! i = Some b ->
    Block.index b = Z.of_nat i /\ ((1 <= i)%nat -> sealed b).

(** [sum(self.balances.values())], adding in the key order of the map.
    Python adds in insertion order; the two sums are the same whenever the
    additions are exact, as on the examples of this file, and may differ in
    the last place once three or more balances round. *)
Definition sum_balances (st : Ledger) : float :=
  map_fold (fun _ v acc => (acc + v)%float) 0%float (balances st).

End Commands.

(** Validation as the specification words it: the senders "Genesis" and
    "System" pass unchecked, any other sender needs a balance of at least
    amount plus levy. *)
Definition validate_as_specified (st : Ledger) (transaction : Transaction.t) : bool :=
  String.eqb (Transaction.sender transaction) "Genesis"
  || String.eqb (Transaction.sender transaction) "System"
  || (Transaction.amount transaction + Transaction.zakat_amount transaction
        <=? get_balance st (Transaction.sender transaction))%float.

(** A block after [k] turns of the search loop. *)
Definition mine_iter {py : PyBuiltins} (k : nat) (b : Block.t) : Block.t :=
  Nat.iter k Block.mine_step b.

(** The block a seal starts its search from. *)
Definition candidate {py : PyBuiltins} (st : Ledger) (latest : Block.t)
    (mining_address now_tx now_block : string) : Block.t :=
  Block.init (Z.of_nat (length (chain st)))
             (pending_transactions st ++ [reward_transaction mining_address now_tx])
             (Block.hash latest) (creator_roll_number st) now_block.

(** Two states with the same creator, chain and pending entries. *)
Definition same_frame (st st' : Ledger) : Prop :=
  creator_roll_number st' = creator_roll_number st /\
  chain st' = chain st /\
  pending_transactions st' = pending_transactions st.

(** ** A runtime for closed examples

    SHA-256 as FIPS 180-4 defines it, on the bytes of the string, with the
    constants computed from the square and cube roots of the first primes;
    and printers that agree with Python's [repr] on the strings and numbers
    of the examples: strings without quotes, backslashes or control
    characters, and numbers that are zero or of magnitude in [1e-4, 1e16)
    with an exact decimal expansion of at most 15 significant digits. *)

Module Sha256.

Definition w32 (x : Z) : Z := Z.land x 4294967295.
Definition rotr (n x : Z) : Z := w32 (Z.lor (Z.shiftr x n) (Z.shiftl x (32 - n))).
Definition add32 (x y : Z) : Z := w32 (x + y).

Definition is_prime (n : Z) : bool :=
  forallb (fun d => negb (n mod d =? 0)) (map Z.of_nat (seq 2 (Z.to_nat n - 2))).

Definition primes : list Z := filter is_prime (map Z.of_nat (seq 2 310)).

(** Largest [r] below [2^bits] with [r^3 <= n], one bit at a time. *)
Fixpoint cube_root (bits : nat) (n r : Z) : Z :=
  match bits with
  | O => r
  | S b =>
      let r' := r + Z.shiftl 1 (Z.of_nat b) in
      cube_root b n (if r' * r' * r' <=? n then r' else r)
  end.

Definition initial_hash : list Z :=
  map (fun p => w32 (Z.sqrt (Z.shiftl p 64))) (firstn 8 primes).

Definition round_constants : list Z :=
  map (fun p => w32 (cube_root 36 (Z.shiftl p 96) 0)) primes.

Definition bytes_of_string (s : string) : list Z :=
  map (fun c => Z.of_nat (nat_of_ascii c)) (list_ascii_of_string s).

Definition be_bytes (width : nat) (x : Z) : list Z :=
  map (fun i => Z.shiftr x (8 * Z.of_nat i) mod 256) (rev (seq 0 width)).

Definition pad (msg : list Z) : list Z :=
  let len := Z.of_nat (List.length msg) in
  let zeros := Z.to_nat ((55 - len) mod 64) in
  msg ++ [128] ++ repeat 0 zeros ++ be_bytes 8 (8 * len).

Fixpoint words (fuel : nat) (bs : list Z) : list Z :=
  match fuel, bs with
  | S f, a :: b :: c :: d :: rest =>
      (((a * 256 + b) * 256 + c) * 256 + d) :: words f rest
  | _, _ => []
  end.

Definition small_sigma0 x := Z.lxor (Z.lxor (rotr 7 x) (rotr 18 x)) (Z.shiftr x 3).
Definition small_sigma1 x := Z.lxor (Z.lxor (rotr 17 x) (rotr 19 x)) (Z.shiftr x 10).
Definition big_sigma0 x := Z.lxor (Z.lxor (rotr 2 x) (rotr 13 x)) (rotr 22 x).
Definition big_sigma1 x := Z.lxor (Z.lxor (rotr 6 x) (rotr 11 x)) (rotr 25 x).
Definition choose x y z := Z.lxor (Z.land x y) (Z.land (Z.lxor x 4294967295) z).
Definition majority x y z := Z.lxor (Z.lxor (Z.land x y) (Z.land x z)) (Z.land y z).

(** The message schedule, newest word first: [sched] holds w[t-1], w[t-2], ... *)
Fixpoint schedule (n : nat) (sched : list Z) : list Z :=
  match n with
  | O => sched
  | S n' =>
      let w := add32 (add32 (small_sigma1 (nth 1 sched 0)) (nth 6 sched 0))
                     (add32 (small_sigma0 (nth 14 sched 0)) (nth 15 sched 0)) in
      schedule n' (w :: sched)
  end.

Record regs := mk { ra : Z; rb : Z; rc : Z; rd : Z; re : Z; rf : Z; rg : Z; rh : Z }.

Definition round (s : regs) (kw : Z * Z) : regs :=
  let t1 := add32 (add32 (add32 (rh s) (big_sigma1 (re s)))
                         (add32 (choose (re s) (rf s) (rg s)) (fst kw))) (snd kw) in
  let t2 := add32 (big_sigma0 (ra s)) (majority (ra s) (rb s) (rc s)) in
  mk (add32 t1 t2) (ra s) (rb s) (rc s) (add32 (rd s) t1) (re s) (rf s) (rg s).

Definition compress (h : regs) (block : list Z) : regs :=
  let w := rev (schedule 48 (rev block)) in
  let s := fold_left round (combine round_constants w) h in
  mk (add32 (ra h) (ra s)) (add32 (rb h) (rb s)) (add32 (rc h) (rc s))
     (add32 (rd h) (rd s)) (add32 (re h) (re s)) (add32 (rf h) (rf s))
     (add32 (rg h) (rg s)) (add32 (rh h) (rh s)).

Fixpoint blocks (fuel : nat) (h : regs) (ws : list Z) : regs :=
  match fuel with
  | O => h
  | S f =>
      match ws with
      | [] => h
      | _ => blocks f (compress h (firstn 16 ws)) (skipn 16 ws)
      end
  end.

Definition hex_digit (n : Z) : ascii :=
  match n with
  | 0 => "0" | 1 => "1" | 2 => "2" | 3 => "3" | 4 => "4" | 5 => "5"
  | 6 => "6" | 7 => "7" | 8 => "8" | 9 => "9" | 10 => "a" | 11 => "b"
  | 12 => "c" | 13 => "d" | 14 => "e" | _ => "f"
  end%char.

Definition hex32 (x : Z) : string :=
  string_of_list_ascii
    (map (fun i => hex_digit (Z.shiftr x (4 * Z.of_nat i) mod 16)) (rev (seq 0 8))).

Definition hexdigest (s : string) : string :=
  let bs := pad (bytes_of_string s) in
  let ws := words (List.length bs) bs in
  let h0 := match initial_hash with
            | [a; b; c; d; e; f; g; h] => mk a b c d e f g h
            | _ => mk 0 0 0 0 0 0 0 0
            end in
  let r := blocks (List.length ws) h0 ws in
  String.concat "" (map hex32 [ra r; rb r; rc r; rd r; re r; rf r; rg r; rh r]).

End Sha256.

Module Demo.

Definition quote (s : string) : string := "'" +:+ s +:+ "'".

Definition digit (d : Z) : ascii := ascii_of_nat (48 + Z.to_nat d).

(** The decimal digits of [num / den] after the point, for [num < den]. *)
Fixpoint fraction_digits (fuel : nat) (num den : Z) : string :=
  match fuel with
  | O => EmptyString
  | S fuel' =>
      if num =? 0 then EmptyString
      else
        let d := 10 * num / den in
        String (digit d) (fraction_digits fuel' (10 * num - d * den) den)
  end.

Definition show_float (x : float) : string :=
  match Prim2SF x with
  | S754_nan => "nan"
  | S754_infinity s => if s then "-inf" else "inf"
  | S754_zero s => if s then "-0.0" else "0.0"
  | S754_finite s m e =>
      let sign := if s then "-" else "" in
      if 0 <=? e then sign +:+ str_int (Z.pos m * 2 ^ e) +:+ ".0"
      else
        let den := 2 ^ (- e) in
        let whole := Z.pos m / den in
        let part := Z.pos m mod den in
        sign +:+ str_int whole +:+ "." +:+
        (if part =? 0 then "0" else fraction_digits (Z.to_nat (- e)) part den)
  end.

Definition two_digits (n : Z) : string :=
  (if n <? 10 then "0" else "") +:+ str_int n.

(** A clock reading, [n] seconds after ten o'clock. *)
Definition clock (n : Z) : string :=
  "2025-08-29 10:" +:+ two_digits (n / 60) +:+ ":" +:+ two_digits (n mod 60).

Definition py : PyBuiltins :=
  {| sha256_hexdigest := Sha256.hexdigest; repr_str := quote; repr_float := show_float |}.

(** A fresh ledger of creator "C1" with 200 coins. *)
Definition fresh : Ledger :=
  new_ledger (py := py) "C1" 200%float (clock 0) (clock 0) (clock 0).

(** Its genesis block. *)
Definition genesis : Block.t :=
  Block.init (py := py) 0
    [Transaction.mk "Genesis" "C1" 200%float 0%float "genesis" (clock 0)]
    "0" "C1" (clock 0).

(** "C1" sends 50 to "C2", then seals; the search stops at nonce 4. *)
Definition session : list command :=
  [CreateTransfer "C1" "C2" 50%float (clock 1); Mine 4 "C1" (clock 27) (clock 27)].

Definition queued : Ledger :=
  snd (create_transfer_transaction fresh "C1" "C2" 50%float (clock 1)).

Definition sealed_once : Ledger :=
  match run (py := py) fresh session with
  | Returns st => st
  | _ => fresh
  end.

Definition block1 : Block.t := default genesis (chain sealed_once !! 1%nat).

(** "X", unknown to the ledger, sends -100 to "C1". *)
Definition reversed : Ledger :=
  snd (create_transfer_transaction fresh "X" "C1" (-100)%float (clock 1)).

End Demo.

(** ** Queries *)

(** [get_all_nodes] returns a copy of the registry, [get_node_info] the record
    of one name or [None]. *)
Definition get_all_nodes (st : Ledger) : gmap string Node.t := nodes st.

Definition get_node_info (st : Ledger) (roll_number : string) : option Node.t :=
  nodes st !! roll_number.

(** A row of [get_transaction_history]: the dictionary of the entry with the
    two keys ['block_index'] and ['block_hash'] added. *)
Module History.

Record row := mk {
  entry : Transaction.t;
  block_index : Z;
  block_hash : string
}.

End History.

(** The two nested [for] loops of [get_transaction_history], appending one
    row per entry. *)
Definition get_transaction_history (st : Ledger) : list History.row :=
  fold_left
    (fun all_transactions block =>
       fold_left
         (fun acc transaction =>
            acc ++ [History.mk transaction (Block.index block) (Block.hash block)])
         (Block.transactions block) all_transactions)
    (chain st) [].

(** The two counters of [get_blockchain_stats]: [total_zakat_collected] and
    [total_transactions], run over the chain in order. *)
Definition stats_totals (c : list Block.t) : float * Z :=
  fold_left
    (fun totals block =>
       fold_left
         (fun acc transaction =>
            ((fst acc + Transaction.zakat_amount transaction)%float, snd acc + 1))
         (Block.transactions block) totals)
    c (0%float, 0).

Module Stats.

Record t := mk {
  total_blocks : Z;
  total_transactions : Z;
  total_zakat_collected : float;
  chain_valid : bool;
  balances : gmap string float;
  creator_roll_number : string;
  total_nodes : Z;
  active_nodes : Z;
  nodes_info : gmap string Node.t
}.

End Stats.

Definition get_blockchain_stats {py : PyBuiltins} (st : Ledger) : Stats.t :=
  let totals := stats_totals (chain st) in
  Stats.mk (Z.of_nat (length (chain st)))
           (snd totals)
           (fst totals)
           (validate_chain st)
           (balances st)
           (creator_roll_number st)
           (Z.of_nat (size (nodes st)))
           (Z.of_nat (length (filter (fun n => Node.is_active n = true)
                                     (map snd (map_to_list (nodes st))))))
           (nodes st).

(** ** Predicates for the invariants *)

(** What [validate_chain] checks: every block after the first stores the hash
    its fields give and the stored hash of its predecessor. *)
Definition chain_links {py : PyBuiltins} (c : list Block.t) : Prop :=
  forall (j : nat) (cur prev : Block.t),
    (1 <= j)%nat -> c !! j = Some cur -> c !! (j - 1)%nat = Some prev ->
    Block.hash cur = Block.calculate_hash cur /\
    Block.previous_hash cur = Block.hash prev.

(** The number of seals among some commands. *)
Fixpoint count_mines (cs : list command) : nat :=
  match cs with
  | [] => O
  | Mine _ _ _ _ :: cs' => S (count_mines cs')
  | _ :: cs' => count_mines cs'
  end.

(** The registry is well kept: every record sits under its own name, is
    active, and its name has a balance. *)
Definition registry_inv (st : Ledger) : Prop :=
  forall (r : string) (n : Node.t),
    nodes st !! r = Some n ->
    Node.roll_number n = r /\ Node.is_active n = true /\ is_Some (balances st !! r).

(** The fields of a record that no method rewrites. *)
Definition same_identity (n n' : Node.t) : Prop :=
  Node.roll_number n' = Node.roll_number n /\
  Node.joined_at n' = Node.joined_at n /\
  Node.is_active n' = Node.is_active n.

(** The sender of an entry is one of the two synthetic issuers. *)
Definition synthetic (sender : string) : bool :=
  String.eqb sender "System" || String.eqb sender "Genesis".

(** What [update_node_stats] does to the registry, given the balance it reads:
    the record of [r], when there is one, counts one more transaction, adds
    the two amounts to its totals and takes the balance as its snapshot. *)
Definition bump (r : string) (balance zakat_paid zakat_received : float)
    (registry : gmap string Node.t) : gmap string Node.t :=
  match registry !! r with
  | Some n =>
      <[r := Node.mk (Node.roll_number n) balance (Node.joined_at n)
                     (Node.transactions_count n + 1)
                     (Node.total_zakat_paid n + zakat_paid)%float
                     (Node.total_zakat_received n + zakat_received)%float
                     (Node.is_active n)]> registry
  | None => registry
  end.

(** Two registries with the same names, each record keeping its identity. *)
Definition registry_kept (N N' : gmap string Node.t) : Prop :=
  (forall a n, N !! a = Some n -> exists n', N' !! a = Some n' /\ same_identity n n') /\
  (forall a n', N' !! a = Some n' -> exists n, N !! a = Some n /\ same_identity n n').

(** The rows of one block in the history. *)
Definition history_rows (b : Block.t) (txs : list Transaction.t) : list History.row :=
  map (fun tx => History.mk tx (Block.index b) (Block.hash b)) txs.

(** Two ledgers that show the same books: balances, registry, chain, history
    and statistics. *)
Definition same_books {py : PyBuiltins} (st st' : Ledger) : Prop :=
  balances st' = balances st /\
  nodes st' = nodes st /\
  chain st' = chain st /\
  get_transaction_history st' = get_transaction_history st /\
  get_blockchain_stats st' = get_blockchain_stats st.

(** ** More closed examples *)

Module Cases.

(** The fresh ledger with "C2" registered at 100. *)
Definition two_accounts : Ledger :=
  snd (add_node Demo.fresh "C2" 100%float (Demo.clock 2)).

(** The entries [create_transfer_transaction] and [create_zakat_transaction]
    build for "C1" there, bound for "C2". *)
Definition transfer : Transaction.t :=
  transfer_entry two_accounts "C1" "C2" 50%float (Demo.clock 3).




(** The ledger after the seal of [Demo.session], where "C2" holds 50 without
    being registered. *)
Definition late : Ledger := Demo.sealed_once.

(** A seal of the fresh ledger by "C2" with nothing pending; the search stops
    at nonce 2. *)
Definition reward_only : Ledger :=
  match mine_pending_transactions (py := Demo.py) 2 Demo.fresh "C2"
          (Demo.clock 42) (Demo.clock 42) with
  | Returns st => st
  | _ => Demo.fresh
  end.

End Cases.

(** * Properties *)

(** ** The proof-of-work search *)

Section Mining.
Context {py : PyBuiltins}.

Lemma mine_step_hash (b : Block.t) :
  Block.hash (Block.mine_step b) = Block.calculate_hash (Block.mine_step b).
Proof. reflexivity. Qed.

Lemma init_hash (i : Z) (txs : list Transaction.t) (p r now : string) :
  Block.hash (Block.init i txs p r now) = Block.calculate_hash (Block.init i txs p r now).
Proof. reflexivity. Qed.

Lemma mine_iter_succ_r (k : nat) (b : Block.t) :
  mine_iter (S k) b = mine_iter k (Block.mine_step b).
Proof.
  unfold mine_iter. apply Nat.iter_succ_r.
Qed.

(** The search only ever touches the nonce and the hash. *)
Lemma mine_iter_fields (k : nat) (b : Block.t) :
  Block.index (mine_iter k b) = Block.index b /\
  Block.transactions (mine_iter k b) = Block.transactions b /\
  Block.previous_hash (mine_iter k b) = Block.previous_hash b /\
  Block.roll_number (mine_iter k b) = Block.roll_number b /\
  Block.timestamp (mine_iter k b) = Block.timestamp b /\
  Block.nonce (mine_iter k b) = Block.nonce b + Z.of_nat k.
Proof.
  induction k as [|k IH].
  - cbn. repeat split; lia.
  - unfold mine_iter in *. rewrite Nat.iter_succ.
    destruct IH as (Hi & Ht & Hp & Hr & Hs & Hn).
    cbn [Block.mine_step Block.set_hash Block.set_nonce Block.index
         Block.transactions Block.previous_hash Block.roll_number
         Block.timestamp Block.nonce].
    repeat split; try assumption. lia.
Qed.

Lemma mine_iter_hash (k : nat) (b : Block.t) :
  Block.hash b = Block.calculate_hash b ->
  Block.hash (mine_iter k b) = Block.calculate_hash (mine_iter k b).
Proof. destruct k; [trivial | intros _; apply mine_step_hash]. Qed.

(** A block that [mine_block] returns passed the loop test after some
    number of turns within the fuel. *)
Lemma mine_block_Some (fuel : nat) (b b' : Block.t) (d : nat) :
  Block.mine_block fuel b d = Some b' ->
  exists k, (k <= fuel)%nat /\ b' = mine_iter k b /\ Block.unsolved d b' = false.
Proof.
  revert b. induction fuel as [|fuel IH]; intros b; cbn [Block.mine_block];
    destruct (Block.unsolved d b) eqn:E; intros Hm; try discriminate.
  - injection Hm as <-. exists 0%nat. auto.
  - destruct (IH _ Hm) as (k & Hk & -> & Hu).
    exists (S k). rewrite mine_iter_succ_r. split; [lia | auto].
  - injection Hm as <-. exists 0%nat. split; [lia | auto].
Qed.

(** When some turn of the loop passes the test, enough fuel reaches it. *)
Lemma mine_block_terminates (k : nat) (b : Block.t) (d : nat) :
  Block.unsolved d (mine_iter k b) = false ->
  forall fuel, (k <= fuel)%nat -> exists b', Block.mine_block fuel b d = Some b'.
Proof.
  revert b. induction k as [|k IH]; intros b Hk fuel Hf.
  - cbn in Hk. destruct fuel; cbn [Block.mine_block]; rewrite Hk; eauto.
  - destruct fuel as [|fuel]; [lia|]. cbn [Block.mine_block].
    destruct (Block.unsolved d b); [|eauto].
    apply IH; [|lia]. now rewrite <- mine_iter_succ_r.
Qed.

Lemma unsolved_false_sealed (b : Block.t) :
  Block.unsolved default_difficulty b = false -> sealed b.
Proof.
  unfold Block.unsolved, sealed. intros Hu.
  apply negb_false_iff in Hu. now apply String.eqb_eq in Hu.
Qed.

End Mining.

(** ** What each method leaves alone *)

Lemma same_frame_refl (st : Ledger) : same_frame st st.
Proof. repeat split. Qed.

Lemma same_frame_trans (a b c : Ledger) :
  same_frame a b -> same_frame b c -> same_frame a c.
Proof. unfold same_frame. intros (? & ? & ?) (? & ? & ?). repeat split; congruence. Qed.

Lemma set_balances_frame (st : Ledger) (m : gmap string float) :
  same_frame st (set_balances m st).
Proof. repeat split. Qed.

Lemma update_node_stats_frame (st : Ledger) (r : string) (p q : float) :
  same_frame st (update_node_stats st r p q).
Proof. unfold update_node_stats. destruct (nodes st !! r); repeat split. Qed.

Lemma ensure_balance_frame (st : Ledger) (k : string) :
  same_frame st
    (match balances st !! k with
     | None => set_balances (<[k := 0%float]> (balances st)) st
     | Some _ => st
     end).
Proof. destruct (balances st !! k); repeat split. Qed.

Lemma update_balances_step_frame (st : Ledger) (tx : Transaction.t) :
  same_frame st (update_balances_step st tx).
Proof.
  unfold update_balances_step.
  set (st1 := if negb _ && negb _ then _ else st).
  assert (same_frame st st1) as H1.
  { subst st1. destruct (negb _ && negb _); [|apply same_frame_refl].
    eapply same_frame_trans; [apply ensure_balance_frame|].
    eapply same_frame_trans; [apply set_balances_frame|].
    apply update_node_stats_frame. }
  clearbody st1.
  eapply same_frame_trans; [exact H1|].
  eapply same_frame_trans; [apply ensure_balance_frame|].
  destruct (_ && _).
  - eapply same_frame_trans; [apply set_balances_frame|].
    apply update_node_stats_frame.
  - apply set_balances_frame.
Qed.

Lemma fold_update_balances_frame (txs : list Transaction.t) (st : Ledger) :
  same_frame st (fold_left update_balances_step txs st).
Proof.
  revert st. induction txs as [|tx txs IH]; intros st; [apply same_frame_refl|].
  cbn [fold_left]. eapply same_frame_trans; [apply update_balances_step_frame | apply IH].
Qed.

Lemma update_balances_frame (st : Ledger) (b : Block.t) :
  same_frame st (update_balances st b).
Proof. apply fold_update_balances_frame. Qed.

Lemma add_node_frame (st : Ledger) (r : string) (x : float) (now : string) :
  creator_roll_number (snd (add_node st r x now)) = creator_roll_number st /\
  chain (snd (add_node st r x now)) = chain st /\
  pending_transactions (snd (add_node st r x now)) = pending_transactions st.
Proof.
  unfold add_node. destruct (nodes st !! r); cbn; [auto|].
  destruct (balances st !! r); cbn; auto.
Qed.

Lemma add_transaction_frame (st : Ledger) (tx : Transaction.t) :
  creator_roll_number (snd (add_transaction st tx)) = creator_roll_number st /\
  chain (snd (add_transaction st tx)) = chain st /\
  balances (snd (add_transaction st tx)) = balances st /\
  nodes (snd (add_transaction st tx)) = nodes st.
Proof. unfold add_transaction. destruct (negb _); cbn; auto. Qed.

Lemma create_zakat_transaction_frame (st : Ledger) (f t now : string) :
  creator_roll_number (snd (create_zakat_transaction st f t now)) = creator_roll_number st /\
  chain (snd (create_zakat_transaction st f t now)) = chain st /\
  balances (snd (create_zakat_transaction st f t now)) = balances st /\
  nodes (snd (create_zakat_transaction st f t now)) = nodes st.
Proof.
  unfold create_zakat_transaction. destruct (_ <? _)%float; [|cbn; auto].
  apply add_transaction_frame.
Qed.

(** ** The shape of a seal *)

Section Sealing.
Context {py : PyBuiltins}.

Lemma mine_pending_Returns (fuel : nat) (st : Ledger) (m now_tx now_block : string)
    (st' : Ledger) :
  mine_pending_transactions fuel st m now_tx now_block = Returns st' ->
  exists latest k,
    get_latest_block st = Some latest /\ (k <= fuel)%nat /\
    let entries := pending_transactions st ++ [reward_transaction m now_tx] in
    let blk := mine_iter k (candidate st latest m now_tx now_block) in
    Block.unsolved default_difficulty blk = false /\
    st' = set_pending []
            (fold_left update_balances_step entries
               (set_chain (chain st ++ [blk]) (set_pending entries st))).
Proof.
  unfold mine_pending_transactions, get_latest_block. cbn [chain set_pending].
  destruct (last (chain st)) as [latest|] eqn:El; [|discriminate].
  change (Block.init _ _ _ _ _) with (candidate st latest m now_tx now_block).
  destruct (Block.mine_block _ _ _) as [mined|] eqn:Em; [|discriminate].
  intros [= <-]. apply mine_block_Some in Em as (k & Hk & -> & Hu).
  exists latest, k. repeat split; try assumption.
  unfold update_balances.
  destruct (mine_iter_fields k (candidate st latest m now_tx now_block))
    as (_ & -> & _). reflexivity.
Qed.

(** The chain, the pending entries and the creator after a seal. *)
Lemma mine_pending_chain (fuel : nat) (st : Ledger) (m now_tx now_block : string)
    (st' : Ledger) :
  mine_pending_transactions fuel st m now_tx now_block = Returns st' ->
  exists latest k,
    get_latest_block st = Some latest /\ (k <= fuel)%nat /\
    Block.unsolved default_difficulty
      (mine_iter k (candidate st latest m now_tx now_block)) = false /\
    chain st' = chain st ++ [mine_iter k (candidate st latest m now_tx now_block)] /\
    pending_transactions st' = [] /\
    creator_roll_number st' = creator_roll_number st.
Proof.
  intros Hm. apply mine_pending_Returns in Hm as (latest & k & Hl & Hk & Hu & ->).
  exists latest, k. repeat split; try assumption; cbn [chain pending_transactions
    creator_roll_number set_pending];
  match goal with
  | |- context [fold_left update_balances_step ?txs ?s0] =>
      destruct (fold_update_balances_frame txs s0) as (Hc & Hch & Hp)
  end; [rewrite Hch | rewrite Hc]; reflexivity.
Qed.

Lemma mine_pending_terminates (k : nat) (st : Ledger) (latest : Block.t)
    (m now_tx now_block : string) :
  get_latest_block st = Some latest ->
  Block.unsolved default_difficulty
    (mine_iter k (candidate st latest m now_tx now_block)) = false ->
  forall fuel, (k <= fuel)%nat ->
    exists st', mine_pending_transactions fuel st m now_tx now_block = Returns st'.
Proof.
  intros Hl Hk fuel Hf.
  unfold mine_pending_transactions, get_latest_block in *. cbn [chain set_pending].
  rewrite Hl.
  change (Block.init _ _ _ _ _) with (candidate st latest m now_tx now_block).
  destruct (mine_block_terminates k _ _ Hk fuel Hf) as (b' & ->). eauto.
Qed.

End Sealing.

(** ** Sealing: one block per seal *)

Section SealShape.
Context {py : PyBuiltins}.

Lemma candidate_fields (st : Ledger) (latest : Block.t) (m now_tx now_block : string)
    (k : nat) :
  let blk := mine_iter k (candidate st latest m now_tx now_block) in
  Block.index blk = Z.of_nat (length (chain st)) /\
  Block.transactions blk
    = pending_transactions st ++ [reward_transaction m now_tx] /\
  Block.previous_hash blk = Block.hash latest /\
  Block.roll_number blk = creator_roll_number st /\
  Block.timestamp blk = now_block /\
  Block.hash blk = Block.calculate_hash blk.
Proof.
  intros blk.
  destruct (mine_iter_fields k (candidate st latest m now_tx now_block))
    as (Hi & Ht & Hp & Hr & Hs & _).
  subst blk. rewrite Hi, Ht, Hp, Hr, Hs.
  repeat split. apply mine_iter_hash, init_hash.
Qed.

End SealShape.



(** ** Reachable states *)

Section Reachable.
Context {py : PyBuiltins}.

Lemma new_ledger_chain (creator : string) (x : float) (t1 t2 t3 : string) :
  chain (new_ledger creator x t1 t2 t3)
  = [Block.init 0 [Transaction.mk "Genesis" creator 200%float 0%float "genesis" t2]
                "0" creator t3] /\
  pending_transactions (new_ledger creator x t1 t2 t3) = [] /\
  creator_roll_number (new_ledger creator x t1 t2 t3) = creator.
Proof.
  unfold new_ledger, create_genesis_block.
  destruct (add_node_frame (mkLedger creator [] [] (<[creator := x]> ∅) ∅) creator x t1)
    as (Hc & Hch & Hp).
  cbn [chain pending_transactions creator_roll_number set_chain].
  rewrite Hc, Hch, Hp. cbn. auto.
Qed.

Lemma new_ledger_chain_inv (creator : string) (x : float) (t1 t2 t3 : string) :
  chain_inv (new_ledger creator x t1 t2 t3).
Proof.
  destruct (new_ledger_chain creator x t1 t2 t3) as (Hc & _).
  unfold chain_inv. rewrite Hc. split; [discriminate|].
  intros i b Hb. apply list_lookup_singleton_Some in Hb as [-> <-].
  split; [reflexivity | lia].
Qed.

Lemma exec_chain_inv (st st' : Ledger) (c : command) :
  exec st c = Returns st' -> chain_inv st -> chain_inv st'.
Proof.
  unfold chain_inv.
  destruct c as [r x now | f t now | f t a now | tx | fuel m t1 t2];
    cbn [exec]; intros Hex Hinv.
  - injection Hex as <-. destruct (add_node_frame st r x now) as (_ & -> & _).
    exact Hinv.
  - injection Hex as <-.
    destruct (create_zakat_transaction_frame st f t now) as (_ & -> & _).
    exact Hinv.
  - injection Hex as <-. unfold create_transfer_transaction.
    destruct (add_transaction_frame st (transfer_entry st f t a now)) as (_ & -> & _).
    exact Hinv.
  - injection Hex as <-. destruct (add_transaction_frame st tx) as (_ & -> & _).
    exact Hinv.
  - apply mine_pending_chain in Hex as (latest & k & _ & _ & Hu & -> & _ & _).
    destruct Hinv as [Hne Hall]. split.
    + intros Happ. apply app_eq_nil in Happ as [_ Hnil]. discriminate.
    + intros i b Hb. apply lookup_snoc_Some in Hb as [[_ Hb] | [-> <-]].
      * apply Hall, Hb.
      * split; [apply candidate_fields | intros _; apply unsolved_false_sealed, Hu].
Qed.

Lemma run_chain_inv (cs : list command) (st st' : Ledger) :
  run st cs = Returns st' -> chain_inv st -> chain_inv st'.
Proof.
  revert st. induction cs as [|c cs IH]; intros st; cbn [run].
  - now intros [= <-].
  - destruct (exec st c) as [st1| |] eqn:Ec; try discriminate.
    intros Hr Hinv. eapply IH; [exact Hr|]. eapply exec_chain_inv; eassumption.
Qed.

Lemma reachable_chain_inv (st : Ledger) : reachable st -> chain_inv st.
Proof.
  intros (creator & x & t1 & t2 & t3 & cs & Hr).
  eapply run_chain_inv; [exact Hr | apply new_ledger_chain_inv].
Qed.

End Reachable.

(** C8: in every ledger state reachable by the public operations, a block at
    position [i >= 1] of the chain carries index [i] and a stored hash whose
    first two characters (the default difficulty) are ['0']. *)
Theorem sealed_blocks_meet_difficulty {py : PyBuiltins} (st : Ledger) (i : nat) (b : Block.t) :
  reachable st ->
  (1 <= i)%nat ->
  chain st !! i = Some b ->
  Block.index b = Z.of_nat i /\
  String.substring 0 default_difficulty (Block.hash b) = "00".
Proof.
  intros Hr Hi Hb. destruct (reachable_chain_inv st Hr) as [_ Hall].
  destruct (Hall i b Hb) as [Hidx Hs]. split; [exact Hidx | exact (Hs Hi)].
Qed.

Lemma sealed_blocks_meet_difficulty_witness :
  reachable (py := Demo.py) Demo.sealed_once /\
  chain Demo.sealed_once !! 1%nat = Some Demo.block1 /\
  Block.nonce Demo.block1 = 4 /\
  String.substring 0 default_difficulty (Block.hash Demo.block1) = "00".
Proof.
  assert (reachable (py := Demo.py) Demo.sealed_once) as Hr.
  { exists "C1", 200%float, (Demo.clock 0), (Demo.clock 0), (Demo.clock 0), Demo.session.
    vm_compute. reflexivity. }
  assert (chain Demo.sealed_once !! 1%nat = Some Demo.block1) as Hb
    by (vm_compute; reflexivity).
  split; [exact Hr|]. split; [exact Hb|]. split; [vm_compute; reflexivity|].
  apply (sealed_blocks_meet_difficulty (py := Demo.py) Demo.sealed_once 1 Demo.block1 Hr);
    [lia | exact Hb].
Defined.

(** ** Comparisons and products of binary64 numbers *)

Lemma SFcompare_antisym (a b : spec_float) :
  SFcompare b a = option_map CompOpp (SFcompare a b).
Proof.
  destruct a as [sa|sa| |sa ma ea], b as [sb|sb| |sb mb eb]; cbn;
    try reflexivity; try (destruct sa; reflexivity); try (destruct sb; reflexivity);
    try (destruct sa, sb; reflexivity).
  destruct sa, sb; cbn; try reflexivity;
    rewrite (Z.compare_antisym ea eb); destruct (ea ?= eb)%Z; cbn; try reflexivity;
    rewrite (Pos.compare_cont_antisym ma mb Eq); cbn;
    destruct (Pos.compare_cont Eq ma mb); reflexivity.
Qed.

Lemma SFcompare_total (a b : spec_float) :
  SFeqb a a = true -> SFeqb b b = true -> exists c, SFcompare a b = Some c.
Proof.
  unfold SFeqb.
  destruct a as [sa|sa| |sa ma ea], b as [sb|sb| |sb mb eb]; cbn;
    try discriminate; eauto.
Qed.

Lemma SFleb_not_ltb (a b : spec_float) : SFleb b a = true -> SFltb a b = false.
Proof.
  unfold SFleb, SFltb. rewrite (SFcompare_antisym a b).
  destruct (SFcompare a b) as [[]|]; cbn; congruence.
Qed.

Lemma SFnot_ltb_leb (a b : spec_float) :
  SFeqb a a = true -> SFeqb b b = true -> SFltb a b = false -> SFleb b a = true.
Proof.
  intros Ha Hb. destruct (SFcompare_total a b Ha Hb) as [c Hc].
  unfold SFleb, SFltb. rewrite (SFcompare_antisym a b), Hc.
  destruct c; cbn; congruence.
Qed.

Lemma float_leb_not_ltb (x y : float) : (y <=? x)%float = true -> (x <? y)%float = false.
Proof. rewrite FloatAxioms.leb_spec, FloatAxioms.ltb_spec. apply SFleb_not_ltb. Qed.

Lemma float_not_ltb_leb (x y : float) :
  is_nan x = false -> is_nan y = false ->
  (x <? y)%float = false -> (y <=? x)%float = true.
Proof.
  unfold is_nan. intros Hx Hy.
  apply negb_false_iff in Hx, Hy. rewrite FloatAxioms.eqb_spec in Hx, Hy.
  rewrite FloatAxioms.leb_spec, FloatAxioms.ltb_spec. now apply SFnot_ltb_leb.
Qed.

Lemma SFmul_comm prec emax (a b : spec_float) : SFmul prec emax a b = SFmul prec emax b a.
Proof.
  destruct a as [sa|sa| |sa ma ea], b as [sb|sb| |sb mb eb]; cbn;
    try reflexivity; try (now rewrite xorb_comm).
  now rewrite xorb_comm, Pos.mul_comm, Z.add_comm.
Qed.

Lemma float_mul_comm (x y : float) : (x * y = y * x)%float.
Proof.
  apply Prim2SF_inj. rewrite !FloatAxioms.mul_spec. unfold SF64mul.
  rewrite (SFmul_comm _ _ (Prim2SF x)). reflexivity.
Qed.

(** ** Entry creation and validation *)

Lemma add_transaction_true (st st' : Ledger) (tx : Transaction.t) :
  add_transaction st tx = (true, st') ->
  validate_transaction st tx = true /\
  st' = set_pending (pending_transactions st ++ [tx]) st.
Proof.
  unfold add_transaction. destruct (validate_transaction st tx); cbn; [|discriminate].
  now intros [= <-].
Qed.

Lemma add_transaction_false (st : Ledger) (tx : Transaction.t) :
  validate_transaction st tx = false -> add_transaction st tx = (false, st).
Proof. unfold add_transaction. now intros ->. Qed.

(** C2: the entry [create_transfer_transaction] builds on every call, and the
    entry [create_zakat_transaction] builds and submits whenever the levy is
    positive, carry as levy 0.025 times the sender's balance at creation,
    whatever the amount of the transfer; a balance of 200 gives 5.0 and a
    balance of 100 gives 2.5, and on both [create_zakat_transaction] succeeds
    and enqueues its entry. *)
Theorem levy_is_rate_times_balance (st : Ledger) (from_address to_address now : string)
    (amount : float) :
  let levy := (zakat_rate * get_balance st from_address)%float in
  (exists tx,
      create_transfer_transaction st from_address to_address amount now
        = add_transaction st tx /\
      tx = Transaction.mk from_address to_address amount levy "transfer" now) /\
  (forall st',
      create_transfer_transaction st from_address to_address amount now = (true, st') ->
      pending_transactions st'
        = pending_transactions st ++
          [Transaction.mk from_address to_address amount levy "transfer" now]) /\
  (forall st',
      create_zakat_transaction st from_address to_address now = (true, st') ->
      pending_transactions st'
        = pending_transactions st ++
          [Transaction.mk from_address to_address 0%float levy "zakat" now]) /\
  create_zakat_transaction st from_address to_address now
  = (if (0 <? levy)%float
     then add_transaction st
            (Transaction.mk from_address to_address 0%float levy "zakat" now)
     else (false, st)) /\
  (get_balance st from_address = 200%float ->
   levy = 5%float /\
   create_zakat_transaction st from_address to_address now
   = (true,
      set_pending
        (pending_transactions st ++
         [Transaction.mk from_address to_address 0%float 5%float "zakat" now]) st)) /\
  (get_balance st from_address = 100%float ->
   levy = 2.5%float /\
   create_zakat_transaction st from_address to_address now
   = (true,
      set_pending
        (pending_transactions st ++
         [Transaction.mk from_address to_address 0%float 2.5%float "zakat" now]) st)).
Proof.
  intros levy.
  assert (calculate_zakat (get_balance st from_address) = levy) as Hlevy
    by apply float_mul_comm.
  assert (transfer_entry st from_address to_address amount now
          = Transaction.mk from_address to_address amount levy "transfer" now) as Ht
    by (unfold transfer_entry, Transaction.init; now rewrite Hlevy).
  assert (zakat_entry st from_address to_address now
          = Transaction.mk from_address to_address 0%float levy "zakat" now) as Hz
    by (unfold zakat_entry, Transaction.init; now rewrite Hlevy).
  assert (create_zakat_transaction st from_address to_address now
          = (if (0 <? levy)%float
             then add_transaction st
                    (Transaction.mk from_address to_address 0%float levy "zakat" now)
             else (false, st))) as Hcz
    by (unfold create_zakat_transaction; now rewrite Hlevy, Hz).
  assert (forall b z : float,
             get_balance st from_address = b ->
             (zakat_rate * b)%float = z ->
             (0 <? z)%float = true ->
             (b <? 0 + z)%float = false ->
             levy = z /\
             create_zakat_transaction st from_address to_address now
             = (true,
                set_pending
                  (pending_transactions st ++
                   [Transaction.mk from_address to_address 0%float z "zakat" now]) st))
    as Hcase.
  { intros b z Hb Hz' Hpos Hok.
    assert (levy = z) as El by (subst levy; now rewrite Hb).
    split; [exact El|]. rewrite Hcz, El, Hpos.
    unfold add_transaction, validate_transaction.
    cbn [Transaction.sender Transaction.amount Transaction.zakat_amount].
    rewrite Hb, Hok. reflexivity. }
  split; [|split; [|split; [|split; [exact Hcz | split]]]].
  - eexists. split; [|reflexivity]. unfold create_transfer_transaction. now rewrite Ht.
  - intros st' Hc. unfold create_transfer_transaction in Hc. rewrite Ht in Hc.
    apply add_transaction_true in Hc as [_ ->]. reflexivity.
  - intros st' Hc. rewrite Hcz in Hc.
    destruct (_ <? _)%float; [|discriminate].
    apply add_transaction_true in Hc as [_ ->]. reflexivity.
  - intros Hb. apply (Hcase _ _ Hb); reflexivity.
  - intros Hb. apply (Hcase _ _ Hb); reflexivity.
Qed.

Lemma levy_is_rate_times_balance_witness :
  get_balance Demo.fresh "C1" = 200%float /\
  pending_transactions Demo.queued
    = [Transaction.mk "C1" "C2" 50%float 5%float "transfer" (Demo.clock 1)] /\
  create_zakat_transaction Demo.fresh "C1" Zakat_Fund (Demo.clock 1)
  = (true,
     set_pending
       [Transaction.mk "C1" Zakat_Fund 0%float 5%float "zakat" (Demo.clock 1)] Demo.fresh).
Proof.
  assert (get_balance Demo.fresh "C1" = 200%float) as Hb by (vm_compute; reflexivity).
  split; [exact Hb|].
  destruct (levy_is_rate_times_balance Demo.fresh "C1" "C2" (Demo.clock 1) 50%float)
    as (_ & Hq & _ & _ & H200 & _).
  destruct (levy_is_rate_times_balance Demo.fresh "C1" Zakat_Fund (Demo.clock 1) 0%float)
    as (_ & _ & _ & _ & Hz200 & _).
  split.
  - rewrite (Hq Demo.queued) by (vm_compute; reflexivity).
    rewrite (proj1 (H200 Hb)). vm_compute. reflexivity.
  - rewrite (proj2 (Hz200 Hb)). vm_compute. reflexivity.
Defined.

(** C3, the claim as stated fails: on a fresh ledger the balance recorded for
    "System" is 0, and an entry sent by "System" (the reward entry itself) is
    rejected, where the specification exempts it. *)
Lemma validate_rejects_system_sender :
  Transaction.sender (reward_transaction "C1" (Demo.clock 1)) = "System" /\
  validate_as_specified Demo.fresh (reward_transaction "C1" (Demo.clock 1)) = true /\
  validate_transaction Demo.fresh (reward_transaction "C1" (Demo.clock 1)) = false.
Proof. vm_compute. repeat split. Qed.

(** C3, amended: for every entry, whoever its sender, [validate_transaction]
    succeeds exactly when the sender's balance is not less than amount plus
    levy; when neither number is NaN that is: exactly when the balance is at
    least amount plus levy. *)
Theorem validate_checks_every_sender (st : Ledger) (tx : Transaction.t) :
  let balance := get_balance st (Transaction.sender tx) in
  let total := (Transaction.amount tx + Transaction.zakat_amount tx)%float in
  (validate_transaction st tx = true <-> (balance <? total)%float = false) /\
  (is_nan balance = false -> is_nan total = false ->
   (validate_transaction st tx = true <-> (total <=? balance)%float = true)).
Proof.
  intros balance total.
  assert (validate_transaction st tx = negb (balance <? total)%float) as Hv.
  { unfold validate_transaction. fold balance total. now destruct (_ <? _)%float. }
  rewrite Hv, negb_true_iff. split; [reflexivity|].
  intros Hb Ht. split.
  - now apply float_not_ltb_leb.
  - apply float_leb_not_ltb.
Qed.

Lemma validate_checks_every_sender_witness :
  is_nan (get_balance Demo.fresh "System") = false /\
  is_nan (10 + 0)%float = false /\
  (validate_transaction Demo.fresh (reward_transaction "C1" (Demo.clock 1)) = true
   <-> (10 + 0 <=? get_balance Demo.fresh "System")%float = true).
Proof.
  assert (is_nan (get_balance Demo.fresh "System") = false) as Hb
    by (vm_compute; reflexivity).
  assert (is_nan (10 + 0)%float = false) as Ht by (vm_compute; reflexivity).
  split; [exact Hb|]. split; [exact Ht|].
  exact (proj2 (validate_checks_every_sender Demo.fresh
                  (reward_transaction "C1" (Demo.clock 1))) Hb Ht).
Defined.

(** C5: a transfer whose amount plus levy exceeds the sender's balance is
    refused, and the refused call returns the ledger it was given: pending
    entries, balances, chain and registry are untouched. *)
Theorem overdrawn_transfer_is_rejected (st : Ledger) (A B now : string) (amount : float) :
  A <> "Genesis" -> A <> "System" ->
  (get_balance st A <? amount + zakat_rate * get_balance st A)%float = true ->
  create_transfer_transaction st A B amount now = (false, st).
Proof.
  intros _ _ Hlt. unfold create_transfer_transaction.
  apply add_transaction_false. unfold validate_transaction, transfer_entry.
  cbn [Transaction.init Transaction.sender Transaction.amount Transaction.zakat_amount].
  unfold calculate_zakat. rewrite (float_mul_comm (get_balance st A) zakat_rate), Hlt.
  reflexivity.
Qed.

Lemma overdrawn_transfer_is_rejected_witness :
  create_transfer_transaction Demo.fresh "C1" "C2" 1000%float (Demo.clock 1)
  = (false, Demo.fresh).
Proof.
  apply (overdrawn_transfer_is_rejected Demo.fresh "C1" "C2" (Demo.clock 1) 1000%float);
    [discriminate | discriminate | vm_compute; reflexivity].
Defined.

(** ** Construction *)

Lemma new_ledger_balance {py : PyBuiltins} (creator : string) (x : float) (t1 t2 t3 : string) :
  get_balance (new_ledger creator x t1 t2 t3) creator = x /\
  balances (new_ledger creator x t1 t2 t3) = <[creator := x]> ∅.
Proof.
  unfold new_ledger, create_genesis_block, add_node, get_balance.
  cbn [nodes balances set_nodes set_balances set_chain snd].
  rewrite lookup_empty. cbn [nodes balances set_nodes set_balances set_chain snd].
  rewrite lookup_insert_eq. cbn [nodes balances set_nodes set_balances set_chain snd].
  rewrite lookup_insert_eq. auto.
Qed.

(** C6, evaluated where it fails: a ledger constructed for "C1" with a
    starting balance of 500 credits 500 to "C1", has an empty pending list and
    one block with previous hash "0" holding one "genesis" entry for "C1", but
    that entry carries the literal 200.0 of the source, not the 500. *)
Theorem genesis_entry_ignores_starting_balance {py : PyBuiltins} (t1 t2 t3 : string) :
  let st := new_ledger "C1" 500%float t1 t2 t3 in
  get_balance st "C1" = 500%float /\
  pending_transactions st = [] /\
  exists g tx,
    chain st = [g] /\
    Block.index g = 0 /\
    Block.previous_hash g = "0" /\
    Block.transactions g = [tx] /\
    Transaction.transaction_type tx = "genesis" /\
    Transaction.receiver tx = "C1" /\
    Transaction.amount tx = 200%float /\
    (Transaction.amount tx =? get_balance st "C1")%float = false.
Proof.
  intros st. subst st.
  destruct (new_ledger_chain "C1" 500%float t1 t2 t3) as (Hc & Hp & _).
  destruct (new_ledger_balance "C1" 500%float t1 t2 t3) as (Hb & _).
  split; [exact Hb|]. split; [exact Hp|].
  eexists. eexists. split; [exact Hc|]. rewrite Hb. cbn. repeat split.
Qed.

(** ** Chain validation *)

Section ValidateChain.
Context {py : PyBuiltins}.

(** From index 1 on, the loop reads of the first block its stored hash
    only. *)
Lemma validate_loop_genesis (g g' : Block.t) (rest : list Block.t) (n i : nat) :
  Block.hash g = Block.hash g' ->
  (1 <= i)%nat ->
  validate_loop (g :: rest) i n = validate_loop (g' :: rest) i n.
Proof.
  intros Hh. revert i. induction n as [|n IH]; intros i Hi; [reflexivity|].
  cbn [validate_loop]. destruct i as [|i]; [lia|].
  replace (S i - 1)%nat with i by lia.
  change ((g :: rest) !! S i) with (rest !! i).
  change ((g' :: rest) !! S i) with (rest !! i).
  destruct (rest !! i) as [cur|]; [|reflexivity].
  rewrite (IH (S (S i))) by lia.
  destruct i as [|i]; cbn [lookup list_lookup]; [now rewrite Hh | reflexivity].
Qed.

End ValidateChain.

(** C9: [validate_chain] reads of the genesis block its stored hash only.
    Two chains with the same blocks after the first and the same stored hash
    in the first get the same verdict; so replacing the entries of the genesis
    block, its stored hash kept, leaves a valid chain valid. *)
Theorem validate_chain_ignores_genesis_contents {py : PyBuiltins} (st st' : Ledger)
    (g g' : Block.t) (rest : list Block.t) :
  chain st = g :: rest ->
  chain st' = g' :: rest ->
  Block.hash g = Block.hash g' ->
  validate_chain st = validate_chain st' /\
  forall txs,
    validate_chain st = true ->
    validate_chain (set_chain (Block.set_transactions txs g :: rest) st) = true.
Proof.
  intros Hc Hc' Hh. unfold validate_chain. split.
  - rewrite Hc, Hc'. cbn [length]. now apply validate_loop_genesis.
  - intros txs. cbn [chain set_chain]. rewrite Hc. cbn [length].
    intros <-. symmetry. now apply validate_loop_genesis.
Qed.

Lemma validate_chain_ignores_genesis_contents_witness :
  chain Demo.sealed_once = Demo.genesis :: [Demo.block1] /\
  validate_chain (py := Demo.py) Demo.sealed_once = true /\
  validate_chain (py := Demo.py)
    (set_chain (Block.set_transactions [] Demo.genesis :: [Demo.block1]) Demo.sealed_once)
  = true.
Proof.
  assert (chain Demo.sealed_once = Demo.genesis :: [Demo.block1]) as Hc
    by (vm_compute; reflexivity).
  assert (validate_chain (py := Demo.py) Demo.sealed_once = true) as Hv
    by (vm_compute; reflexivity).
  split; [exact Hc|]. split; [exact Hv|].
  exact (proj2 (validate_chain_ignores_genesis_contents (py := Demo.py)
                  Demo.sealed_once Demo.sealed_once Demo.genesis Demo.genesis
                  [Demo.block1] Hc Hc eq_refl) [] Hv).
Defined.

(** ** The transfer-and-seal scenario *)

Section Scenario.
Context {py : PyBuiltins}.

(** Balances after a seal, read off the entries of the new block. *)
Lemma mine_pending_balance (fuel : nat) (st st' : Ledger) (m now_tx now_block : string) :
  mine_pending_transactions fuel st m now_tx now_block = Returns st' ->
  exists c p,
    balances st'
    = balances (fold_left update_balances_step
                  (pending_transactions st ++ [reward_transaction m now_tx])
                  (set_chain c (set_pending p st))).
Proof.
  intros Hm. apply mine_pending_Returns in Hm as (latest & k & _ & _ & _ & ->).
  eexists. eexists. cbn [balances set_pending]. reflexivity.
Qed.

End Scenario.

(** C4: on a fresh ledger of "C1" with 200, the transfer of 50 to "C2" is
    accepted; when the seal by "C1" returns, "C2" holds 50, "C1" holds
    200 - 50 - 5.0 + 10.0, the chain has two blocks and [validate_chain] is
    true.  The seal returns with enough fuel whenever some turn of the search
    passes the difficulty test. *)
Theorem transfer_then_seal_scenario {py : PyBuiltins} (t1 t2 t3 t4 t5 t6 : string) :
  let st0 := new_ledger "C1" 200%float t1 t2 t3 in
  let r := create_transfer_transaction st0 "C1" "C2" 50%float t4 in
  fst r = true /\
  (forall fuel st2,
      mine_pending_transactions fuel (snd r) "C1" t5 t6 = Returns st2 ->
      get_balance st2 "C2" = 50%float /\
      get_balance st2 "C1" = (200 - 50 - 5 + mining_reward)%float /\
      length (chain st2) = 2%nat /\
      validate_chain st2 = true) /\
  (forall latest k,
      get_latest_block (snd r) = Some latest ->
      Block.unsolved default_difficulty
        (mine_iter k (candidate (snd r) latest "C1" t5 t6)) = false ->
      forall fuel, (k <= fuel)%nat ->
        exists st2, mine_pending_transactions fuel (snd r) "C1" t5 t6 = Returns st2).
Proof.
  intros st0 r.
  assert (r = (true, set_pending
                       [Transaction.mk "C1" "C2" 50%float 5%float "transfer" t4] st0)) as Hr.
  { subst r. unfold create_transfer_transaction, add_transaction, validate_transaction,
      transfer_entry, Transaction.init.
    cbn [Transaction.sender Transaction.amount Transaction.zakat_amount].
    destruct (new_ledger_balance "C1" 200%float t1 t2 t3) as (Hb & _).
    destruct (new_ledger_chain "C1" 200%float t1 t2 t3) as (_ & Hp & _).
    fold st0 in Hb, Hp. rewrite Hb. reflexivity. }
  rewrite Hr. cbn [fst snd]. split; [reflexivity|]. split.
  - intros fuel st2 Hm.
    destruct (mine_pending_balance fuel _ st2 "C1" t5 t6 Hm) as (c & p & Hb).
    unfold get_balance. rewrite Hb.
    split; [vm_compute; reflexivity|]. split; [vm_compute; reflexivity|].
    apply mine_pending_chain in Hm as (latest & k & Hl & _ & _ & Hc & _ & _).
    destruct (new_ledger_chain "C1" 200%float t1 t2 t3) as (Hc0 & _ & _).
    fold st0 in Hc0. cbn [chain set_pending] in Hc. rewrite Hc0 in Hc.
    unfold get_latest_block in Hl. cbn [chain set_pending] in Hl.
    rewrite Hc0 in Hl. injection Hl as <-.
    unfold validate_chain. rewrite Hc. split; [reflexivity|].
    cbn [app length Nat.sub validate_loop lookup list_lookup].
    match goal with
    | |- context [mine_iter k ?b] =>
        destruct (candidate_fields
                    (set_pending [Transaction.mk "C1" "C2" 50%float 5%float "transfer" t4] st0)
                    (Block.init 0
                       [Transaction.mk "Genesis" "C1" 200%float 0%float "genesis" t2]
                       "0" "C1" t3) "C1" t5 t6 k) as (_ & _ & Hph & _ & _ & Hh)
    end.
    rewrite <- Hh, Hph, !String.eqb_refl. reflexivity.
  - intros latest k Hl Hk fuel Hf. eapply mine_pending_terminates; eassumption.
Qed.

Lemma transfer_then_seal_scenario_witness :
  mine_pending_transactions (py := Demo.py) 4 Demo.queued "C1" (Demo.clock 27) (Demo.clock 27)
    = Returns Demo.sealed_once /\
  get_balance Demo.sealed_once "C2" = 50%float /\
  get_balance Demo.sealed_once "C1" = 155%float /\
  length (chain Demo.sealed_once) = 2%nat /\
  validate_chain (py := Demo.py) Demo.sealed_once = true.
Proof.
  assert (mine_pending_transactions (py := Demo.py) 4 Demo.queued "C1"
            (Demo.clock 27) (Demo.clock 27) = Returns Demo.sealed_once) as Hm
    by (vm_compute; reflexivity).
  split; [exact Hm|].
  exact (proj1 (proj2 (transfer_then_seal_scenario (py := Demo.py)
                         (Demo.clock 0) (Demo.clock 0) (Demo.clock 0)
                         (Demo.clock 1) (Demo.clock 27) (Demo.clock 27)))
           4%nat Demo.sealed_once Hm).
Defined.

(** ** Conservation *)

(** C1, evaluated where it fails: a fresh ledger of "C1" with 200, one
    transfer of 50 to "C2", one seal by "C1".  The registered starting
    balances total 200 and one block was sealed, so conservation asks for
    210; the balances are 155 and 50 and sum to 205: the levy of 5 was taken
    from the sender and credited to nobody. *)
Theorem seal_burns_the_levy {py : PyBuiltins} (t1 t2 t3 t4 t5 t6 : string) (fuel : nat)
    (st2 : Ledger) :
  let st0 := new_ledger "C1" 200%float t1 t2 t3 in
  let st1 := snd (create_transfer_transaction st0 "C1" "C2" 50%float t4) in
  mine_pending_transactions fuel st1 "C1" t5 t6 = Returns st2 ->
  sum_balances st0 = 200%float /\
  length (chain st2) = 2%nat /\
  balances st2 = <["C2" := 50%float]> (<["C1" := 155%float]> ∅) /\
  sum_balances st2 = 205%float /\
  (200 + mining_reward * 1)%float = 210%float.
Proof.
  intros st0 st1 Hm.
  destruct (mine_pending_balance fuel _ st2 "C1" t5 t6 Hm) as (c & p & Hb).
  assert (balances st2 = <["C2" := 50%float]> (<["C1" := 155%float]> ∅)) as Hb2.
  { rewrite Hb. vm_compute. reflexivity. }
  split; [vm_compute; reflexivity|]. split.
  - apply mine_pending_chain in Hm as (latest & k & _ & _ & _ & -> & _ & _).
    rewrite length_app. reflexivity.
  - split; [exact Hb2|]. unfold sum_balances. rewrite Hb2.
    split; vm_compute; reflexivity.
Qed.

Lemma seal_burns_the_levy_witness :
  mine_pending_transactions (py := Demo.py) 4 Demo.queued "C1" (Demo.clock 27) (Demo.clock 27)
    = Returns Demo.sealed_once /\
  sum_balances Demo.sealed_once = 205%float.
Proof.
  assert (mine_pending_transactions (py := Demo.py) 4 Demo.queued "C1"
            (Demo.clock 27) (Demo.clock 27) = Returns Demo.sealed_once) as Hm
    by (vm_compute; reflexivity).
  split; [exact Hm|].
  exact (proj1 (proj2 (proj2 (proj2
           (seal_burns_the_levy (py := Demo.py)
              (Demo.clock 0) (Demo.clock 0) (Demo.clock 0)
              (Demo.clock 1) (Demo.clock 27) (Demo.clock 27)
              4%nat Demo.sealed_once Hm))))).
Defined.

(** ** Negative amounts *)

(** C10: no method asks for a non-negative amount.  "X", whose balance is 0,
    may send -100 to "C1": the levy is 0, the call returns true and the entry
    is enqueued.  Applying the entry alone, or sealing the block that holds
    it, raises the balance of the sender "X" from 0 to 100 and lowers that of
    the receiver "C1" from 200 to 100. *)
Theorem negative_transfer_is_accepted {py : PyBuiltins} (t1 t2 t3 t4 t5 t6 : string) :
  let st0 := new_ledger "C1" 200%float t1 t2 t3 in
  let tx := Transaction.mk "X" "C1" (-100)%float 0%float "transfer" t4 in
  let r := create_transfer_transaction st0 "X" "C1" (-100)%float t4 in
  (Transaction.amount tx <? 0)%float = true /\
  r = (true, set_pending [tx] st0) /\
  get_balance (snd r) "X" = 0%float /\
  get_balance (snd r) "C1" = 200%float /\
  get_balance (update_balances_step (snd r) tx) "X" = 100%float /\
  get_balance (update_balances_step (snd r) tx) "C1" = 100%float /\
  (forall fuel st2,
      mine_pending_transactions fuel (snd r) "M" t5 t6 = Returns st2 ->
      get_balance st2 "X" = 100%float /\ get_balance st2 "C1" = 100%float).
Proof.
  intros st0 tx r.
  assert (r = (true, set_pending [tx] st0)) as Hr by (vm_compute; reflexivity).
  rewrite Hr. cbn [snd].
  split; [reflexivity|]. split; [reflexivity|].
  split; [vm_compute; reflexivity|]. split; [vm_compute; reflexivity|].
  split; [vm_compute; reflexivity|]. split; [vm_compute; reflexivity|].
  intros fuel st2 Hm.
  destruct (mine_pending_balance fuel _ st2 "M" t5 t6 Hm) as (c & p & Hb).
  unfold get_balance. rewrite Hb. split; vm_compute; reflexivity.
Qed.

Lemma negative_transfer_is_accepted_witness :
  exists st2,
    mine_pending_transactions (py := Demo.py) 2 Demo.reversed "M"
      (Demo.clock 29) (Demo.clock 29) = Returns st2 /\
    get_balance st2 "X" = 100%float /\ get_balance st2 "C1" = 100%float.
Proof.
  destruct (mine_pending_transactions (py := Demo.py) 2 Demo.reversed "M"
              (Demo.clock 29) (Demo.clock 29)) as [st2| |] eqn:Hm;
    [|vm_compute in Hm; discriminate Hm|vm_compute in Hm; discriminate Hm].
  exists st2. split; [reflexivity|].
  exact (proj2 (proj2 (proj2 (proj2 (proj2 (proj2
           (negative_transfer_is_accepted (py := Demo.py)
              (Demo.clock 0) (Demo.clock 0) (Demo.clock 0)
              (Demo.clock 1) (Demo.clock 29) (Demo.clock 29)))))))
           2%nat st2 Hm).
Defined.

(** ** The example runtime against CPython

    The digests below are those [hashlib] gives for the same strings. *)

Example sha256_abc :
  Sha256.hexdigest "abc"
  = "ba7816bf8f01cfea414140de5dae2223b00361a396177a9cb410ff61f20015ad".
Proof. vm_compute. reflexivity. Qed.

Example sha256_empty :
  Sha256.hexdigest ""
  = "e3b0c44298fc1c149afbf4c8996fb92427ae41e4649b934ca495991b7852b855".
Proof. vm_compute. reflexivity. Qed.

Example demo_entry_printed :
  Transaction.to_dict_str (py := Demo.py)
    (Transaction.mk "C1" "C2" 50%float 5%float "transfer" (Demo.clock 1))
  = "{'sender': 'C1', 'receiver': 'C2', 'amount': 50.0, 'zakat_amount': 5.0, 'transaction_type': 'transfer', 'timestamp': '2025-08-29 10:00:01'}".
Proof. vm_compute. reflexivity. Qed.

Example demo_floats_printed :
  map Demo.show_float [200; 2.5; 1.25; -100; 0; 0.5; 1000000]%float
  = ["200.0"; "2.5"; "1.25"; "-100.0"; "0.0"; "0.5"; "1000000.0"].
Proof. vm_compute. reflexivity. Qed.

Example demo_genesis_hash :
  Block.hash Demo.genesis
  = "102d8097d00501fe5e44531f5e2d613dd1a065cf13587496d539a53fc9285962".
Proof. vm_compute. reflexivity. Qed.

Example demo_block1 :
  Block.nonce Demo.block1 = 4 /\
  Block.hash Demo.block1
  = "003c888abf261c65111a568092c2be42de6289c1aa3c653fc7fbb67bbe3d41a3".
Proof. vm_compute. split; reflexivity. Qed.

(** * Further properties *)

(** ** What [validate_chain] decides *)

Section ChainLinks.
Context {py : PyBuiltins}.

Lemma validate_loop_links (c : list Block.t) (n i : nat) :
  (1 <= i)%nat -> (i + n)%nat = length c ->
  validate_loop c i n = true <->
  (forall j cur prev,
      (i <= j)%nat -> c !! j = Some cur -> c !! (j - 1)%nat = Some prev ->
      Block.hash cur = Block.calculate_hash cur /\
      Block.previous_hash cur = Block.hash prev).
Proof.
  revert i. induction n as [|n IH]; intros i Hi Hlen.
  - cbn [validate_loop]. split; [|reflexivity]. intros _ j cur prev Hj Hc _.
    apply lookup_lt_Some in Hc. lia.
  - cbn [validate_loop].
    destruct (lookup_lt_is_Some_2 c i) as [cur Hcur]; [lia|].
    destruct (lookup_lt_is_Some_2 c (i - 1)) as [prev Hprev]; [lia|].
    rewrite Hcur, Hprev.
    destruct (String.eqb_spec (Block.hash cur) (Block.calculate_hash cur)) as [Hh|Hh];
      cbn [negb].
    + destruct (String.eqb_spec (Block.previous_hash cur) (Block.hash prev)) as [Hp|Hp];
        cbn [negb].
      * rewrite (IH (S i)) by lia. split.
        -- intros Hall j cur' prev' Hj Hc' Hp'.
           destruct (decide (j = i)) as [->|Hne].
           ++ rewrite Hcur in Hc'. rewrite Hprev in Hp'.
              injection Hc' as <-. injection Hp' as <-. auto.
           ++ apply (Hall j); [lia | assumption | assumption].
        -- intros Hall j cur' prev' Hj. apply Hall. lia.
      * split; [discriminate|]. intros Hall.
        destruct (Hall i cur prev) as [_ Hp']; [lia | assumption | assumption |].
        contradiction.
    + split; [discriminate|]. intros Hall.
      destruct (Hall i cur prev) as [Hh' _]; [lia | assumption | assumption |].
      contradiction.
Qed.

(** The recomputed hash does not read the stored one. *)
Lemma calculate_hash_set_hash (h : string) (b : Block.t) :
  Block.calculate_hash (Block.set_hash h b) = Block.calculate_hash b.
Proof. reflexivity. Qed.

End ChainLinks.

(** The verdict of [validate_chain] in terms of the links of the chain. *)
Lemma validate_chain_links {py : PyBuiltins} (st : Ledger) :
  validate_chain st = true <-> chain_links (chain st).
Proof.
  unfold validate_chain, chain_links.
  destruct (chain st) as [|g rest] eqn:Hc.
  - cbn. split; [|reflexivity]. intros _ j cur prev _ Hl. discriminate Hl.
  - rewrite <- Hc. rewrite validate_loop_links; [reflexivity | lia |].
    rewrite Hc. cbn [length]. lia.
Qed.

(** X1: [validate_chain] returns true exactly when every block after the first
    stores the hash recomputed from its own fields and, as previous hash, the
    stored hash of the block before it. *)
Theorem validate_chain_iff_links {py : PyBuiltins} (st : Ledger) :
  validate_chain st = true <-> chain_links (chain st).
Proof. apply validate_chain_links. Qed.

(** ** Invariants of the public operations *)

Section Invariants.
Context {py : PyBuiltins}.

Lemma run_invariant (P : Ledger -> Prop) :
  (forall st c st', P st -> exec st c = Returns st' -> P st') ->
  forall cs st st', P st -> run st cs = Returns st' -> P st'.
Proof.
  intros Hstep. induction cs as [|c cs IH]; intros st st' HP; cbn [run].
  - now intros [= <-].
  - destruct (exec st c) as [st1| |] eqn:Ec; try discriminate.
    apply IH. eapply Hstep; eassumption.
Qed.

Lemma reachable_invariant (P : Ledger -> Prop) :
  (forall creator x t1 t2 t3, P (new_ledger creator x t1 t2 t3)) ->
  (forall st c st', P st -> exec st c = Returns st' -> P st') ->
  forall st, reachable st -> P st.
Proof.
  intros Hinit Hstep st (creator & x & t1 & t2 & t3 & cs & Hr).
  eapply run_invariant; [exact Hstep | apply Hinit | exact Hr].
Qed.

(** What one command does to the creator and to the chain. *)
Lemma exec_chain (st st' : Ledger) (c : command) :
  exec st c = Returns st' ->
  creator_roll_number st' = creator_roll_number st /\
  match c with
  | Mine fuel m t1 t2 =>
      exists latest k,
        get_latest_block st = Some latest /\
        chain st' = chain st ++ [mine_iter k (candidate st latest m t1 t2)]
  | _ => chain st' = chain st
  end.
Proof.
  destruct c as [r x now | f t now | f t a now | tx | fuel m t1 t2];
    cbn [exec]; intros Hex.
  - injection Hex as <-. destruct (add_node_frame st r x now) as (-> & -> & _). auto.
  - injection Hex as <-.
    destruct (create_zakat_transaction_frame st f t now) as (-> & -> & _). auto.
  - injection Hex as <-. unfold create_transfer_transaction.
    destruct (add_transaction_frame st (transfer_entry st f t a now)) as (-> & -> & _).
    auto.
  - injection Hex as <-. destruct (add_transaction_frame st tx) as (-> & -> & _). auto.
  - apply mine_pending_chain in Hex as (latest & k & Hl & _ & _ & Hc & _ & Hcr).
    split; [exact Hcr|]. exists latest, k. auto.
Qed.

Lemma chain_links_snoc (c : list Block.t) (latest blk : Block.t) :
  last c = Some latest ->
  Block.hash blk = Block.calculate_hash blk ->
  Block.previous_hash blk = Block.hash latest ->
  chain_links c -> chain_links (c ++ [blk]).
Proof.
  intros Hlast Hh Hp Hold j cur prev Hj Hcur Hprev.
  apply lookup_snoc_Some in Hcur as [[Hlt Hcur] | [-> <-]].
  - apply (Hold j cur prev Hj Hcur). now rewrite lookup_app_l in Hprev by lia.
  - rewrite lookup_app_l in Hprev by lia.
    rewrite last_lookup in Hlast.
    replace (length c - 1)%nat with (pred (length c)) in Hprev by lia.
    rewrite Hlast in Hprev. injection Hprev as <-. auto.
Qed.

End Invariants.

(** The links hold along every run from a constructed ledger. *)
Lemma reachable_links_valid {py : PyBuiltins} (st : Ledger) :
  reachable st -> validate_chain st = true.
Proof.
  intros Hr. apply validate_chain_links. revert st Hr.
  apply (reachable_invariant (fun st => chain_links (chain st))).
  - intros creator x t1 t2 t3.
    destruct (new_ledger_chain creator x t1 t2 t3) as (-> & _).
    intros j cur prev Hj Hc. apply list_lookup_singleton_Some in Hc as [-> _]. lia.
  - intros st c st' Hinv Hex. apply exec_chain in Hex as [_ Hc].
    destruct c; try (rewrite Hc; exact Hinv).
    destruct Hc as (latest & k & Hl & ->).
    destruct (candidate_fields st latest mining_address now_tx now_block k)
      as (_ & _ & Hp & _ & _ & Hh).
    now apply (chain_links_snoc _ latest).
Qed.

(** X2: in every ledger state reachable by the public operations
    [validate_chain] returns true. *)
Theorem reachable_chain_is_valid {py : PyBuiltins} (st : Ledger) :
  reachable st -> validate_chain st = true.
Proof. apply reachable_links_valid. Qed.

Lemma reachable_chain_is_valid_witness :
  reachable (py := Demo.py) Demo.sealed_once /\
  validate_chain (py := Demo.py) Demo.sealed_once = true.
Proof.
  assert (reachable (py := Demo.py) Demo.sealed_once) as Hr.
  { exists "C1", 200%float, (Demo.clock 0), (Demo.clock 0), (Demo.clock 0), Demo.session.
    vm_compute. reflexivity. }
  split; [exact Hr | exact (reachable_chain_is_valid (py := Demo.py) _ Hr)].
Defined.

(** X3: overwriting the stored hash of a block after the first with a string
    other than the hash its fields give makes [validate_chain] return false,
    whatever the rest of the chain. *)
Theorem tampered_hash_is_detected {py : PyBuiltins} (st : Ledger) (i : nat)
    (b : Block.t) (h : string) :
  (1 <= i)%nat ->
  chain st !! i = Some b ->
  h <> Block.calculate_hash b ->
  validate_chain (set_chain (<[i := Block.set_hash h b]> (chain st)) st) = false.
Proof.
  intros Hi Hb Hh. apply not_true_is_false. intros Hv.
  apply validate_chain_links in Hv. cbn [chain set_chain] in Hv.
  pose proof (lookup_lt_Some _ _ _ Hb) as Hlt.
  destruct (lookup_lt_is_Some_2 (<[i := Block.set_hash h b]> (chain st)) (i - 1))
    as [prev Hprev]; [rewrite length_insert; lia|].
  destruct (Hv i (Block.set_hash h b) prev Hi) as [Hbad _];
    [now apply list_lookup_insert_eq | exact Hprev |].
  rewrite calculate_hash_set_hash in Hbad. cbn in Hbad. contradiction.
Qed.

Lemma tampered_hash_is_detected_witness :
  validate_chain (py := Demo.py)
    (set_chain (<[1%nat := Block.set_hash "tampered_hash" Demo.block1]>
                  (chain Demo.sealed_once)) Demo.sealed_once) = false.
Proof.
  apply (tampered_hash_is_detected (py := Demo.py) Demo.sealed_once 1 Demo.block1);
    [lia | vm_compute; reflexivity | vm_compute; discriminate].
Defined.

(** X4: every block of a ledger carries the creator's identifier as seed key,
    whoever sealed it, and the creator recorded in the ledger stays the one
    given at construction. *)
Theorem seed_key_is_the_creator {py : PyBuiltins} (creator : string) (x : float)
    (t1 t2 t3 : string) (cs : list command) (st : Ledger) :
  run (new_ledger creator x t1 t2 t3) cs = Returns st ->
  creator_roll_number st = creator /\
  forall i b, chain st !! i = Some b -> Block.roll_number b = creator.
Proof.
  apply (run_invariant
           (fun st => creator_roll_number st = creator /\
                      forall i b, chain st !! i = Some b -> Block.roll_number b = creator)).
  - intros s c s' [Hcr Hall] Hex. apply exec_chain in Hex as [Hcr' Hc].
    split; [congruence|].
    destruct c; try (rewrite Hc; exact Hall).
    destruct Hc as (latest & k & _ & ->). intros i b Hb.
    apply lookup_snoc_Some in Hb as [[_ Hb] | [_ <-]]; [eapply Hall, Hb|].
    destruct (candidate_fields s latest mining_address now_tx now_block k)
      as (_ & _ & _ & -> & _). exact Hcr.
  - destruct (new_ledger_chain creator x t1 t2 t3) as (-> & _ & ->).
    split; [reflexivity|]. intros i b Hb.
    apply list_lookup_singleton_Some in Hb as [_ <-]. reflexivity.
Qed.

Lemma seed_key_is_the_creator_witness :
  creator_roll_number Demo.sealed_once = "C1" /\
  forall i b, chain Demo.sealed_once !! i = Some b -> Block.roll_number b = "C1".
Proof.
  apply (seed_key_is_the_creator (py := Demo.py) "C1" 200%float
           (Demo.clock 0) (Demo.clock 0) (Demo.clock 0) Demo.session).
  vm_compute. reflexivity.
Defined.

(** X5: the chain is append-only.  Whatever commands run, the chain
    afterwards is the chain before followed by one new block per seal; no
    block already in the chain is changed, moved or removed. *)
Theorem chain_is_append_only {py : PyBuiltins} (cs : list command) (st st' : Ledger) :
  run st cs = Returns st' ->
  exists suffix,
    chain st' = chain st ++ suffix /\ length suffix = count_mines cs.
Proof.
  revert st. induction cs as [|c cs IH]; intros st; cbn [run].
  - intros [= <-]. exists []. now rewrite app_nil_r.
  - destruct (exec st c) as [st1| |] eqn:Ec; try discriminate.
    intros Hr. destruct (IH _ Hr) as (suffix & Hs & Hl).
    apply exec_chain in Ec as [_ Hc].
    destruct c; try (exists suffix; rewrite Hs, Hc; now cbn [count_mines]).
    destruct Hc as (latest & k & _ & Hc). rewrite Hc, <- app_assoc in Hs.
    eexists. split; [exact Hs|]. cbn [app length count_mines]. now rewrite Hl.
Qed.

Lemma chain_is_append_only_witness :
  exists suffix,
    chain Demo.sealed_once = chain Demo.fresh ++ suffix /\ length suffix = 1%nat.
Proof.
  apply (chain_is_append_only (py := Demo.py) Demo.session Demo.fresh Demo.sealed_once).
  vm_compute. reflexivity.
Defined.

(** X6: a seal raises [IndexError] exactly on a ledger whose chain is empty,
    and no sequence of public operations on a constructed ledger ever
    does. *)
Theorem seal_index_error_iff_empty_chain {py : PyBuiltins} (st : Ledger) (fuel : nat)
    (m t1 t2 : string) :
  (mine_pending_transactions fuel st m t1 t2 = IndexError <-> chain st = []) /\
  (forall creator x n1 n2 n3 cs,
      run (new_ledger creator x n1 n2 n3) cs <> IndexError).
Proof.
  split.
  - unfold mine_pending_transactions, get_latest_block. cbn [chain set_pending].
    rewrite <- last_None. destruct (last (chain st)) as [latest|].
    + split; [|discriminate]. now destruct (Block.mine_block _ _ _).
    + split; reflexivity.
  - intros creator x n1 n2 n3 cs.
    assert (forall s, chain s <> [] -> run s cs <> IndexError) as Hgen.
    { induction cs as [|c cs IH]; intros s Hne; cbn [run]; [discriminate|].
      destruct (exec s c) as [s1| |] eqn:Ec.
      - apply IH. apply exec_chain in Ec as [_ Hc].
        destruct c; try (rewrite Hc; exact Hne).
        destruct Hc as (latest & k & _ & ->).
        intros Happ. apply app_eq_nil in Happ as [_ Hnil]. discriminate.
      - exfalso. destruct c; try discriminate. cbn [exec] in Ec.
        unfold mine_pending_transactions, get_latest_block in Ec.
        cbn [chain set_pending] in Ec.
        destruct (last (chain s)) as [latest|] eqn:El.
        + now destruct (Block.mine_block _ _ _).
        + apply last_None in El. contradiction.
      - discriminate. }
    apply Hgen. destruct (new_ledger_chain creator x n1 n2 n3) as (-> & _).
    discriminate.
Qed.

(** ** The search returns the first solution *)

(** X7: [mine_block] returns a block exactly when some turn of the loop within
    the fuel passes the difficulty test, and then it returns the block of the
    first such turn, its nonce raised by the number of turns; it runs out of
    fuel exactly when no turn within the fuel passes. *)
Theorem mine_block_returns_first_solution {py : PyBuiltins} (fuel : nat)
    (b : Block.t) (d : nat) :
  (forall b',
      Block.mine_block fuel b d = Some b' <->
      exists k,
        (k <= fuel)%nat /\ b' = mine_iter k b /\
        Block.nonce b' = Block.nonce b + Z.of_nat k /\
        Block.unsolved d (mine_iter k b) = false /\
        forall j, (j < k)%nat -> Block.unsolved d (mine_iter j b) = true) /\
  (Block.mine_block fuel b d = None <->
   forall j, (j <= fuel)%nat -> Block.unsolved d (mine_iter j b) = true).
Proof.
  assert (forall f c c',
             Block.mine_block f c d = Some c' ->
             exists k,
               (k <= f)%nat /\ c' = mine_iter k c /\
               Block.unsolved d (mine_iter k c) = false /\
               forall j, (j < k)%nat -> Block.unsolved d (mine_iter j c) = true) as Hfwd.
  { induction f as [|f IH]; intros c c'; cbn [Block.mine_block];
      destruct (Block.unsolved d c) eqn:E; intros Hm; try discriminate.
    - injection Hm as <-. exists 0%nat.
      split; [lia|]. split; [reflexivity|]. split; [exact E|]. intros j Hj. lia.
    - destruct (IH _ _ Hm) as (k & Hk & -> & Hu & Hall).
      exists (S k). rewrite mine_iter_succ_r.
      split; [lia|]. split; [reflexivity|]. split; [exact Hu|].
      intros [|j] Hj; [exact E|]. rewrite mine_iter_succ_r. apply Hall. lia.
    - injection Hm as <-. exists 0%nat.
      split; [lia|]. split; [reflexivity|]. split; [exact E|]. intros j Hj. lia. }
  assert (forall k f c,
             (k <= f)%nat ->
             Block.unsolved d (mine_iter k c) = false ->
             (forall j, (j < k)%nat -> Block.unsolved d (mine_iter j c) = true) ->
             Block.mine_block f c d = Some (mine_iter k c)) as Hbwd.
  { induction k as [|k IH]; intros f c Hk Hu Hall.
    - cbn in Hu. destruct f; cbn [Block.mine_block]; now rewrite Hu.
    - destruct f as [|f]; [lia|]. cbn [Block.mine_block].
      pose proof (Hall 0%nat ltac:(lia)) as H0.
      change (mine_iter 0 c) with c in H0. rewrite H0, mine_iter_succ_r.
      apply IH; [lia | now rewrite <- mine_iter_succ_r |].
      intros j Hj. rewrite <- mine_iter_succ_r. apply Hall. lia. }
  assert (forall f c,
             Block.mine_block f c d = None ->
             forall j, (j <= f)%nat -> Block.unsolved d (mine_iter j c) = true) as Hnone.
  { induction f as [|f IH]; intros c; cbn [Block.mine_block];
      destruct (Block.unsolved d c) eqn:E; intros Hm; try discriminate.
    - intros j Hj. replace j with 0%nat by lia. exact E.
    - intros [|j] Hj; [exact E|]. rewrite mine_iter_succ_r. apply (IH _ Hm). lia. }
  split.
  - intros b'. split.
    + intros Hm. destruct (Hfwd _ _ _ Hm) as (k & Hk & -> & Hu & Hall).
      exists k. split; [exact Hk|]. split; [reflexivity|].
      split; [|split; assumption].
      now destruct (mine_iter_fields k b) as (_ & _ & _ & _ & _ & ->).
    + intros (k & Hk & -> & _ & Hu & Hall). now apply Hbwd.
  - split; [apply Hnone|].
    intros Hall. destruct (Block.mine_block fuel b d) as [b'|] eqn:Hm; [|reflexivity].
    destruct (Hfwd _ _ _ Hm) as (k & Hk & _ & Hu & _).
    rewrite (Hall k Hk) in Hu. discriminate.
Qed.

(** ** Applying one entry *)

Lemma update_node_stats_balances (st : Ledger) (r : string) (p q : float) :
  balances (update_node_stats st r p q) = balances st.
Proof. unfold update_node_stats. now destruct (nodes st !! r). Qed.

Lemma update_node_stats_lookup_ne (st : Ledger) (r a : string) (p q : float) :
  a <> r -> nodes (update_node_stats st r p q) !! a = nodes st !! a.
Proof.
  intros Hne. unfold update_node_stats. destruct (nodes st !! r); [|reflexivity].
  cbn [nodes set_nodes]. now rewrite lookup_insert_ne.
Qed.

Lemma ensure_insert (m : gmap string float) (k : string) (v : float) :
  <[k := v]> (match m !! k with
              | None => <[k := 0%float]> m
              | Some _ => m
              end) = <[k := v]> m.
Proof. destruct (m !! k); [reflexivity | apply insert_insert_eq]. Qed.

Lemma ensure_default (m : gmap string float) (k : string) :
  default 0%float ((match m !! k with
                    | None => <[k := 0%float]> m
                    | Some _ => m
                    end) !! k) = default 0%float (m !! k).
Proof.
  destruct (m !! k) eqn:E; [now rewrite E|]. now rewrite lookup_insert_eq.
Qed.

(** The balances after one entry, as a map. *)
Lemma update_balances_step_balances (st : Ledger) (tx : Transaction.t) :
  let s := Transaction.sender tx in
  let r := Transaction.receiver tx in
  let m1 :=
    if synthetic s then balances st
    else <[s := (get_balance st s
                 - (Transaction.amount tx + Transaction.zakat_amount tx))%float]>
           (balances st) in
  balances (update_balances_step st tx)
  = <[r := (default 0%float (m1 !! r) + Transaction.amount tx)%float]> m1.
Proof.
  intros s r m1. unfold update_balances_step. fold s r.
  set (st1 := if negb (String.eqb s "System") && negb (String.eqb s "Genesis")
              then _ else st).
  assert (balances st1 = m1) as H1.
  { subst st1 m1. unfold synthetic.
    destruct (String.eqb s "System"), (String.eqb s "Genesis"); cbn [negb andb orb];
      try reflexivity.
    rewrite update_node_stats_balances. cbn [balances set_balances].
    unfold get_balance.
    assert (forall sa : Ledger,
               sa = match balances st !! s with
                    | None => set_balances (<[s := 0%float]> (balances st)) st
                    | Some _ => st
                    end ->
               balances sa = match balances st !! s with
                             | None => <[s := 0%float]> (balances st)
                             | Some _ => balances st
                             end) as Hsa
      by (intros sa ->; now destruct (balances st !! s)).
    rewrite (Hsa _ eq_refl), ensure_default. apply ensure_insert. }
  clearbody st1.
  assert (forall s2 : Ledger,
             s2 = match balances st1 !! r with
                  | None => set_balances (<[r := 0%float]> (balances st1)) st1
                  | Some _ => st1
                  end ->
             balances s2 = match balances st1 !! r with
                           | None => <[r := 0%float]> (balances st1)
                           | Some _ => balances st1
                           end) as Hs2
    by (intros s2 ->; now destruct (balances st1 !! r)).
  assert (balances
            (set_balances
               (<[r := (get_balance
                          (match balances st1 !! r with
                           | None => set_balances (<[r := 0%float]> (balances st1)) st1
                           | Some _ => st1
                           end) r + Transaction.amount tx)%float]>
                  (balances
                     (match balances st1 !! r with
                      | None => set_balances (<[r := 0%float]> (balances st1)) st1
                      | Some _ => st1
                      end)))
               (match balances st1 !! r with
                | None => set_balances (<[r := 0%float]> (balances st1)) st1
                | Some _ => st1
                end))
          = <[r := (default 0%float (m1 !! r) + Transaction.amount tx)%float]> m1) as H3.
  { cbn [balances set_balances]. unfold get_balance.
    rewrite (Hs2 _ eq_refl), ensure_default, ensure_insert, H1. reflexivity. }
  destruct (_ && _); [rewrite update_node_stats_balances|]; exact H3.
Qed.

(** The balance of any account after one entry. *)
Lemma step_balance (st : Ledger) (tx : Transaction.t) (a : string) :
  let s := Transaction.sender tx in
  let r := Transaction.receiver tx in
  let debited x :=
    if negb (synthetic s) && String.eqb x s
    then (get_balance st x
          - (Transaction.amount tx + Transaction.zakat_amount tx))%float
    else get_balance st x in
  get_balance (update_balances_step st tx) a
  = if String.eqb a r then (debited r + Transaction.amount tx)%float else debited a.
Proof.
  intros s r debited. unfold get_balance at 1.
  rewrite update_balances_step_balances. fold s r.
  assert (forall x,
             default 0%float
               ((if synthetic s then balances st
                 else <[s := (get_balance st s
                              - (Transaction.amount tx
                                 + Transaction.zakat_amount tx))%float]>
                        (balances st)) !! x) = debited x) as Hd.
  { intros x. subst debited. cbn beta. destruct (synthetic s); cbn [negb andb];
      [reflexivity|].
    destruct (String.eqb_spec x s) as [->|Hne].
    - now rewrite lookup_insert_eq.
    - rewrite lookup_insert_ne by congruence. reflexivity. }
  destruct (String.eqb_spec a r) as [->|Hne].
  - rewrite lookup_insert_eq. cbn [default]. now rewrite Hd.
  - rewrite lookup_insert_ne by congruence. apply Hd.
Qed.

(** X8: the balances after one entry is applied.  A sender other than "System"
    and "Genesis" loses amount plus levy, then the receiver gains the amount;
    an account that is neither keeps its balance, and a synthetic sender is
    not debited at all. *)
Theorem update_balances_step_balance (st : Ledger) (tx : Transaction.t) (a : string) :
  let s := Transaction.sender tx in
  let r := Transaction.receiver tx in
  let debited x :=
    if negb (synthetic s) && String.eqb x s
    then (get_balance st x
          - (Transaction.amount tx + Transaction.zakat_amount tx))%float
    else get_balance st x in
  get_balance (update_balances_step st tx) a
  = if String.eqb a r then (debited r + Transaction.amount tx)%float else debited a.
Proof. apply step_balance. Qed.

(** An account that no entry credits, and that none but a synthetic entry
    names as sender, keeps its balance through all of them. *)
Lemma fold_update_balances_untouched (txs : list Transaction.t) (st : Ledger) (a : string) :
  Forall (fun tx => (synthetic (Transaction.sender tx) = true \/ Transaction.sender tx <> a)
                    /\ Transaction.receiver tx <> a) txs ->
  get_balance (fold_left update_balances_step txs st) a = get_balance st a.
Proof.
  revert st. induction txs as [|tx txs IH]; intros st Hall; [reflexivity|].
  apply Forall_cons in Hall as [[Hs Hr] Hall]. cbn [fold_left].
  rewrite (IH _ Hall), step_balance.
  destruct (String.eqb_spec a (Transaction.receiver tx)) as [->|_]; [contradiction|].
  destruct Hs as [-> | Hs]; [reflexivity|].
  destruct (String.eqb_spec a (Transaction.sender tx)) as [->|_]; [contradiction|].
  now rewrite andb_false_r.
Qed.

(** Accounts a seal does not name. *)
Lemma seal_untouched {py : PyBuiltins} (fuel : nat) (st st' : Ledger)
    (m t1 t2 a : string) :
  mine_pending_transactions fuel st m t1 t2 = Returns st' ->
  a <> m ->
  Forall (fun tx => Transaction.sender tx <> a /\ Transaction.receiver tx <> a)
         (pending_transactions st) ->
  get_balance st' a = get_balance st a.
Proof.
  intros Hm Ham Hall.
  destruct (mine_pending_balance fuel st st' m t1 t2 Hm) as (c & p & Hb).
  unfold get_balance at 1. rewrite Hb.
  change (default 0%float (balances ?s !! a)) with (get_balance s a).
  rewrite fold_update_balances_untouched; [reflexivity|].
  apply Forall_app. split.
  - eapply Forall_impl; [exact Hall|]. intros tx [Hs Hr]. auto.
  - apply Forall_cons. split; [|constructor]. cbn. split; [now left | congruence].
Qed.

(** X9: a seal changes no balance but those of the senders and receivers of
    the pending entries and of the sealing identity. *)
Theorem seal_leaves_unnamed_accounts {py : PyBuiltins} (fuel : nat) (st st' : Ledger)
    (m t1 t2 a : string) :
  mine_pending_transactions fuel st m t1 t2 = Returns st' ->
  a <> m ->
  Forall (fun tx => Transaction.sender tx <> a /\ Transaction.receiver tx <> a)
         (pending_transactions st) ->
  get_balance st' a = get_balance st a.
Proof. apply seal_untouched. Qed.

Lemma seal_leaves_unnamed_accounts_witness :
  get_balance Demo.sealed_once "Zakat_Fund" = get_balance Demo.queued "Zakat_Fund".
Proof.
  apply (seal_leaves_unnamed_accounts (py := Demo.py) 4 Demo.queued Demo.sealed_once
           "C1" (Demo.clock 27) (Demo.clock 27) "Zakat_Fund").
  - vm_compute. reflexivity.
  - discriminate.
  - vm_compute. repeat constructor; discriminate.
Defined.

(** The registry record of [a] survives an entry untouched unless [a] is its
    debited sender or the receiver of a "zakat" entry not bound for the
    fund. *)
Lemma update_balances_step_nodes (st : Ledger) (tx : Transaction.t) (a : string) :
  synthetic (Transaction.sender tx) = true \/ a <> Transaction.sender tx ->
  String.eqb (Transaction.transaction_type tx) "zakat"
    && negb (String.eqb (Transaction.receiver tx) Zakat_Fund) = false
  \/ a <> Transaction.receiver tx ->
  nodes (update_balances_step st tx) !! a = nodes st !! a.
Proof.
  intros Hs Hr. unfold update_balances_step.
  set (st1 := if negb (String.eqb (Transaction.sender tx) "System")
                 && negb (String.eqb (Transaction.sender tx) "Genesis")
              then _ else st).
  assert (nodes st1 !! a = nodes st !! a) as H1.
  { subst st1. unfold synthetic in Hs.
    destruct (String.eqb (Transaction.sender tx) "System"),
             (String.eqb (Transaction.sender tx) "Genesis"); cbn [negb andb orb] in *;
      try reflexivity.
    destruct Hs as [Hs|Hs]; [discriminate|].
    rewrite update_node_stats_lookup_ne by exact Hs.
    cbn [nodes set_balances]. now destruct (balances st !! Transaction.sender tx). }
  clearbody st1. rewrite <- H1.
  assert (forall (m : gmap string float) (s2 : Ledger),
             nodes s2 = nodes st1 -> nodes (set_balances m s2) = nodes st1) as Hset
    by (intros m s2 H2; exact H2).
  assert (nodes (match balances st1 !! Transaction.receiver tx with
                 | None => set_balances
                             (<[Transaction.receiver tx := 0%float]> (balances st1)) st1
                 | Some _ => st1
                 end) = nodes st1) as H2
    by now destruct (balances st1 !! Transaction.receiver tx).
  destruct (_ && _) eqn:Ez.
  - destruct Hr as [Hr|Hr]; [discriminate|].
    rewrite update_node_stats_lookup_ne by exact Hr.
    cbn [nodes set_balances]. now rewrite H2.
  - cbn [nodes set_balances]. now rewrite H2.
Qed.

(** X10: a seal with nothing pending makes a block holding the reward entry
    alone: the sealing identity gains the reward constant, every other balance
    and the whole registry stay as they were, so the registry's balance
    snapshot of the sealing identity is not refreshed. *)
Theorem reward_only_seal {py : PyBuiltins} (fuel : nat) (st st' : Ledger)
    (m t1 t2 : string) :
  pending_transactions st = [] ->
  mine_pending_transactions fuel st m t1 t2 = Returns st' ->
  get_balance st' m = (get_balance st m + mining_reward)%float /\
  (forall a, a <> m -> get_balance st' a = get_balance st a) /\
  nodes st' = nodes st /\
  exists blk,
    last (chain st') = Some blk /\
    Block.transactions blk = [reward_transaction m t1].
Proof.
  intros Hp Hm. split; [|split; [|split]].
  - destruct (mine_pending_balance fuel st st' m t1 t2 Hm) as (c & p & Hb).
    unfold get_balance at 1. rewrite Hb, Hp. cbn [app fold_left].
    change (default 0%float (balances ?s !! m)) with (get_balance s m).
    rewrite step_balance.
    cbn [reward_transaction Transaction.init Transaction.sender Transaction.receiver
         Transaction.amount].
    rewrite String.eqb_refl. reflexivity.
  - intros a Ha. eapply seal_untouched; [exact Hm | exact Ha |].
    rewrite Hp. constructor.
  - apply mine_pending_Returns in Hm as (latest & k & _ & _ & _ & ->).
    rewrite Hp. cbn [app fold_left nodes set_pending]. apply map_eq. intros a.
    rewrite update_balances_step_nodes; [reflexivity | now left | now left].
  - apply mine_pending_chain in Hm as (latest & k & _ & _ & _ & Hc & _ & _).
    eexists. rewrite Hc, last_snoc. split; [reflexivity|].
    destruct (candidate_fields st latest m t1 t2 k) as (_ & -> & _).
    now rewrite Hp.
Qed.

(** ** The registry under one entry *)

Lemma update_node_stats_nodes (st : Ledger) (r : string) (p q : float) :
  nodes (update_node_stats st r p q) = bump r (get_balance st r) p q (nodes st).
Proof. unfold update_node_stats, bump. now destruct (nodes st !! r). Qed.

Lemma bump_lookup_eq (r : string) (b p q : float) (N : gmap string Node.t) (n : Node.t) :
  N !! r = Some n ->
  bump r b p q N !! r
  = Some (Node.mk (Node.roll_number n) b (Node.joined_at n)
                  (Node.transactions_count n + 1)
                  (Node.total_zakat_paid n + p)%float
                  (Node.total_zakat_received n + q)%float
                  (Node.is_active n)).
Proof. intros Hn. unfold bump. rewrite Hn. apply lookup_insert_eq. Qed.

Lemma bump_lookup_ne (r a : string) (b p q : float) (N : gmap string Node.t) :
  a <> r -> bump r b p q N !! a = N !! a.
Proof.
  intros Hne. unfold bump. destruct (N !! r); [|reflexivity].
  now rewrite lookup_insert_ne.
Qed.

Lemma same_identity_refl (n : Node.t) : same_identity n n.
Proof. repeat split. Qed.

Lemma same_identity_trans (a b c : Node.t) :
  same_identity a b -> same_identity b c -> same_identity a c.
Proof. unfold same_identity. intros (? & ? & ?) (? & ? & ?). repeat split; congruence. Qed.

Lemma registry_kept_refl (N : gmap string Node.t) : registry_kept N N.
Proof. split; intros a n Hn; exists n; auto using same_identity_refl. Qed.

Lemma registry_kept_trans (A B C : gmap string Node.t) :
  registry_kept A B -> registry_kept B C -> registry_kept A C.
Proof.
  intros [H1 H1'] [H2 H2']. split.
  - intros a n Hn. destruct (H1 a n Hn) as (n1 & Hn1 & Hi1).
    destruct (H2 a n1 Hn1) as (n2 & Hn2 & Hi2).
    exists n2. eauto using same_identity_trans.
  - intros a n Hn. destruct (H2' a n Hn) as (n1 & Hn1 & Hi1).
    destruct (H1' a n1 Hn1) as (n2 & Hn2 & Hi2).
    exists n2. eauto using same_identity_trans.
Qed.

Lemma registry_kept_bump (r : string) (b p q : float) (N : gmap string Node.t) :
  registry_kept N (bump r b p q N).
Proof.
  split; intros a n Hn.
  - destruct (decide (a = r)) as [->|Hne].
    + rewrite (bump_lookup_eq r b p q N n Hn). eexists. split; [reflexivity|].
      repeat split.
    + rewrite bump_lookup_ne by exact Hne. exists n. auto using same_identity_refl.
  - destruct (decide (a = r)) as [->|Hne].
    + destruct (N !! r) as [n0|] eqn:E.
      * rewrite (bump_lookup_eq r b p q N n0 E) in Hn. injection Hn as <-.
        exists n0. split; [reflexivity|]. repeat split.
      * unfold bump in Hn. rewrite E in Hn. congruence.
    + rewrite bump_lookup_ne in Hn by exact Hne. exists n. auto using same_identity_refl.
Qed.

(** The registry after one entry, as a map. *)
Lemma update_balances_step_registry (st : Ledger) (tx : Transaction.t) :
  let s := Transaction.sender tx in
  let r := Transaction.receiver tx in
  let N1 :=
    if synthetic s then nodes st
    else bump s (get_balance st s
                 - (Transaction.amount tx + Transaction.zakat_amount tx))%float
              (Transaction.zakat_amount tx) 0%float (nodes st) in
  nodes (update_balances_step st tx)
  = if String.eqb (Transaction.transaction_type tx) "zakat"
       && negb (String.eqb r Zakat_Fund)
    then bump r (get_balance (update_balances_step st tx) r) 0%float
              (Transaction.zakat_amount tx) N1
    else N1.
Proof.
  intros s r N1.
  assert (get_balance (update_balances_step st tx) r
          = default 0%float (balances (update_balances_step st tx) !! r)) as Hg
    by reflexivity.
  rewrite Hg. clear Hg. unfold update_balances_step. fold s r.
  set (st1 := if negb (String.eqb s "System") && negb (String.eqb s "Genesis")
              then _ else st).
  assert (nodes st1 = N1) as H1.
  { subst st1 N1. unfold synthetic.
    destruct (String.eqb s "System"), (String.eqb s "Genesis"); cbn [negb andb orb];
      try reflexivity.
    rewrite update_node_stats_nodes. cbn [nodes set_balances].
    unfold get_balance at 1. cbn [balances set_balances]. rewrite lookup_insert_eq.
    cbn [default].
    assert (get_balance
              (match balances st !! s with
               | None => set_balances (<[s := 0%float]> (balances st)) st
               | Some _ => st
               end) s = get_balance st s) as ->.
    { unfold get_balance. destruct (balances st !! s) eqn:E; [now rewrite E|].
      cbn [balances set_balances]. now rewrite lookup_insert_eq. }
    now destruct (balances st !! s). }
  clearbody st1.
  set (st2 := match balances st1 !! r with
              | None => set_balances (<[r := 0%float]> (balances st1)) st1
              | Some _ => st1
              end).
  assert (nodes st2 = N1) as H2 by (subst st2; now destruct (balances st1 !! r)).
  clearbody st2.
  destruct (_ && _).
  - rewrite update_node_stats_nodes, update_node_stats_balances.
    cbn [nodes balances set_balances]. now rewrite H2.
  - cbn [nodes set_balances]. exact H2.
Qed.

Lemma update_balances_step_registry_kept (st : Ledger) (tx : Transaction.t) :
  registry_kept (nodes st) (nodes (update_balances_step st tx)).
Proof.
  rewrite update_balances_step_registry.
  assert (registry_kept (nodes st)
            (if synthetic (Transaction.sender tx) then nodes st
             else bump (Transaction.sender tx)
                       (get_balance st (Transaction.sender tx)
                        - (Transaction.amount tx + Transaction.zakat_amount tx))%float
                       (Transaction.zakat_amount tx) 0%float (nodes st))) as H1
    by (destruct (synthetic _); [apply registry_kept_refl | apply registry_kept_bump]).
  destruct (_ && _); [|exact H1].
  eapply registry_kept_trans; [exact H1 | apply registry_kept_bump].
Qed.


(** X12: a registered sender other than "System" and "Genesis" that does not
    send to itself has its record brought up to date by the entry: one more
    transaction, the levy added to the levy paid, and a balance snapshot equal
    to its balance after the entry. *)
Theorem sender_record_is_updated (st : Ledger) (tx : Transaction.t) (n : Node.t) :
  synthetic (Transaction.sender tx) = false ->
  Transaction.receiver tx <> Transaction.sender tx ->
  nodes st !! Transaction.sender tx = Some n ->
  nodes (update_balances_step st tx) !! Transaction.sender tx
  = Some (Node.mk (Node.roll_number n)
                  (get_balance (update_balances_step st tx) (Transaction.sender tx))
                  (Node.joined_at n)
                  (Node.transactions_count n + 1)
                  (Node.total_zakat_paid n + Transaction.zakat_amount tx)%float
                  (Node.total_zakat_received n + 0)%float
                  (Node.is_active n)) /\
  get_balance (update_balances_step st tx) (Transaction.sender tx)
  = (get_balance st (Transaction.sender tx)
     - (Transaction.amount tx + Transaction.zakat_amount tx))%float.
Proof.
  intros Hs Hr Hn.
  assert (get_balance (update_balances_step st tx) (Transaction.sender tx)
          = (get_balance st (Transaction.sender tx)
             - (Transaction.amount tx + Transaction.zakat_amount tx))%float) as Hb.
  { rewrite step_balance, Hs.
    destruct (String.eqb_spec (Transaction.sender tx) (Transaction.receiver tx))
      as [E|_]; [congruence|].
    cbn [negb andb]. now rewrite String.eqb_refl. }
  split; [|exact Hb]. rewrite Hb, update_balances_step_registry, Hs.
  destruct (_ && _).
  - rewrite bump_lookup_ne by congruence. now apply bump_lookup_eq.
  - now apply bump_lookup_eq.
Qed.


(** ** Registration *)

(** X14: registration never overwrites a balance.  A name that already has a
    balance (it received coins before registering) and is new to the registry
    is registered, keeps the balance it had, and gets a record whose balance
    snapshot is the starting balance it asked for. *)
Theorem add_node_keeps_existing_balance (st : Ledger) (r : string) (x b : float)
    (now : string) :
  nodes st !! r = None ->
  balances st !! r = Some b ->
  fst (add_node st r x now) = true /\
  get_balance (snd (add_node st r x now)) r = b /\
  balances (snd (add_node st r x now)) = balances st /\
  get_node_info (snd (add_node st r x now)) r
  = Some (Node.mk r x now 0 0%float 0%float true).
Proof.
  intros Hn Hb. unfold get_node_info, add_node, get_balance. rewrite Hn.
  cbn [balances nodes set_nodes]. rewrite Hb. cbn [fst snd balances nodes set_nodes].
  rewrite Hb, lookup_insert_eq. auto.
Qed.

(** X15: a name can be registered once.  After any call of [add_node] for a
    name, accepted or not, a second call for that name returns false and
    leaves the ledger as it is. *)
Theorem add_node_twice_is_refused (st : Ledger) (r : string) (x y : float)
    (now later : string) :
  add_node (snd (add_node st r x now)) r y later = (false, snd (add_node st r x now)).
Proof.
  assert (exists n, nodes (snd (add_node st r x now)) !! r = Some n) as [n Hn].
  { unfold add_node. destruct (nodes st !! r) as [n|] eqn:E; cbn [snd].
    - eauto.
    - cbn [balances nodes set_nodes].
      destruct (balances st !! r); cbn [nodes set_nodes set_balances];
        rewrite lookup_insert_eq; eauto. }
  unfold add_node at 1. now rewrite Hn.
Qed.

(** X16: a first registration of a name unknown to the ledger is accepted and
    gives it the starting balance; no other balance changes. *)
Theorem add_node_fresh (st : Ledger) (r : string) (x : float) (now : string) :
  nodes st !! r = None ->
  balances st !! r = None ->
  fst (add_node st r x now) = true /\
  get_balance (snd (add_node st r x now)) r = x /\
  (forall a, a <> r ->
     get_balance (snd (add_node st r x now)) a = get_balance st a) /\
  size (get_all_nodes (snd (add_node st r x now))) = S (size (get_all_nodes st)).
Proof.
  intros Hn Hb. unfold get_all_nodes, add_node, get_balance. rewrite Hn.
  cbn [balances nodes set_nodes]. rewrite Hb.
  cbn [fst snd balances nodes set_nodes set_balances].
  rewrite lookup_insert_eq. repeat split.
  - intros a Ha. now rewrite lookup_insert_ne by congruence.
  - now apply map_size_insert_None.
Qed.

(** ** The registry as an invariant *)

Section Registry.
Context {py : PyBuiltins}.

Lemma fold_update_balances_registry_kept (txs : list Transaction.t) (st : Ledger) :
  registry_kept (nodes st) (nodes (fold_left update_balances_step txs st)).
Proof.
  revert st. induction txs as [|tx txs IH]; intros st; [apply registry_kept_refl|].
  cbn [fold_left]. eapply registry_kept_trans;
    [apply update_balances_step_registry_kept | apply IH].
Qed.

Lemma update_balances_step_balance_keys (st : Ledger) (tx : Transaction.t) (a : string) :
  is_Some (balances st !! a) -> is_Some (balances (update_balances_step st tx) !! a).
Proof.
  intros Ha. rewrite update_balances_step_balances.
  apply lookup_insert_is_Some'. right.
  destruct (synthetic _); [exact Ha|]. apply lookup_insert_is_Some'. now right.
Qed.

Lemma fold_update_balances_balance_keys (txs : list Transaction.t) (st : Ledger)
    (a : string) :
  is_Some (balances st !! a) ->
  is_Some (balances (fold_left update_balances_step txs st) !! a).
Proof.
  revert st. induction txs as [|tx txs IH]; intros st Ha; [exact Ha|].
  cbn [fold_left]. apply IH. now apply update_balances_step_balance_keys.
Qed.

(** What one command does to the registry and to the names with a balance. *)
Lemma exec_registry (st st' : Ledger) (c : command) :
  exec st c = Returns st' ->
  (forall a, is_Some (balances st !! a) -> is_Some (balances st' !! a)) /\
  match c with
  | AddNode r x now =>
      match nodes st !! r with
      | Some _ => nodes st' = nodes st
      | None =>
          nodes st' = <[r := Node.mk r x now 0 0%float 0%float true]> (nodes st) /\
          is_Some (balances st' !! r)
      end
  | _ => registry_kept (nodes st) (nodes st')
  end.
Proof.
  destruct c as [r x now | f t now | f t a now | tx | fuel m t1 t2];
    cbn [exec]; intros Hex.
  - injection Hex as <-. unfold add_node.
    destruct (nodes st !! r); cbn [snd]; [auto|].
    cbn [balances nodes set_nodes].
    destruct (balances st !! r) eqn:Eb; cbn [balances nodes set_nodes set_balances].
    + rewrite Eb. auto.
    + split; [|split; [reflexivity | now rewrite lookup_insert_eq]].
      intros a Ha. apply lookup_insert_is_Some'. now right.
  - injection Hex as <-.
    destruct (create_zakat_transaction_frame st f t now) as (_ & _ & -> & ->).
    split; [auto | apply registry_kept_refl].
  - injection Hex as <-. unfold create_transfer_transaction.
    destruct (add_transaction_frame st (transfer_entry st f t a now)) as (_ & _ & -> & ->).
    split; [auto | apply registry_kept_refl].
  - injection Hex as <-. destruct (add_transaction_frame st tx) as (_ & _ & -> & ->).
    split; [auto | apply registry_kept_refl].
  - apply mine_pending_Returns in Hex as (latest & k & _ & _ & _ & ->).
    cbn [balances nodes set_pending]. split.
    + intros a Ha. now apply fold_update_balances_balance_keys.
    + apply (fold_update_balances_registry_kept _
               (set_chain _ (set_pending _ st))).
Qed.

Lemma exec_registry_inv (st st' : Ledger) (c : command) :
  registry_inv st -> exec st c = Returns st' -> registry_inv st'.
Proof.
  intros Hinv Hex. apply exec_registry in Hex as [Hkeys Hc].
  intros a n' Hn'.
  assert (registry_kept (nodes st) (nodes st') ->
          Node.roll_number n' = a /\ Node.is_active n' = true /\
          is_Some (balances st' !! a)) as Hkept.
  { intros [_ Hback]. destruct (Hback a n' Hn') as (n & Hn & Hr & _ & Ha).
    destruct (Hinv a n Hn) as (Hr0 & Ha0 & Hb0).
    repeat split; [congruence | congruence | auto]. }
  destruct c as [r x now | | | |]; try (apply Hkept, Hc).
  destruct (nodes st !! r) eqn:E.
  - rewrite Hc in Hn'. destruct (Hinv a n' Hn') as (? & ? & ?). auto.
  - destruct Hc as [Hc Hb]. rewrite Hc in Hn'.
    destruct (decide (a = r)) as [->|Hne].
    + rewrite lookup_insert_eq in Hn'. injection Hn' as <-. auto.
    + rewrite lookup_insert_ne in Hn' by congruence.
      destruct (Hinv a n' Hn') as (? & ? & ?). auto.
Qed.

Lemma new_ledger_registry (creator : string) (x : float) (t1 t2 t3 : string) :
  nodes (new_ledger creator x t1 t2 t3)
  = <[creator := Node.mk creator x t1 0 0%float 0%float true]> ∅.
Proof.
  unfold new_ledger, create_genesis_block, add_node.
  cbn [nodes balances set_nodes set_balances set_chain snd].
  rewrite lookup_empty. cbn [nodes balances set_nodes set_balances set_chain snd].
  rewrite lookup_insert_eq. reflexivity.
Qed.

End Registry.

(** The registry invariant along every run from a constructed ledger. *)
Lemma reachable_registry_inv {py : PyBuiltins} (st : Ledger) :
  reachable st -> registry_inv st.
Proof.
  revert st. apply reachable_invariant.
  - intros creator x t1 t2 t3 a n. rewrite new_ledger_registry.
    destruct (new_ledger_balance creator x t1 t2 t3) as (_ & ->).
    intros Hn. destruct (decide (a = creator)) as [->|Hne].
    + rewrite lookup_insert_eq in Hn. injection Hn as <-.
      rewrite lookup_insert_eq. repeat split. eauto.
    + rewrite lookup_insert_ne, lookup_empty in Hn by congruence. discriminate.
  - intros st c st'. apply exec_registry_inv.
Qed.

(** X17: in every ledger state reachable by the public operations, each
    registry record sits under its own name, is active, and its name has an
    entry in the balances. *)
Theorem registry_is_well_kept {py : PyBuiltins} (st : Ledger) :
  reachable st -> registry_inv st.
Proof. apply reachable_registry_inv. Qed.

Lemma registry_is_well_kept_witness :
  reachable (py := Demo.py) Demo.sealed_once /\ registry_inv Demo.sealed_once.
Proof.
  assert (reachable (py := Demo.py) Demo.sealed_once) as Hr.
  { exists "C1", 200%float, (Demo.clock 0), (Demo.clock 0), (Demo.clock 0), Demo.session.
    vm_compute. reflexivity. }
  split; [exact Hr | exact (registry_is_well_kept (py := Demo.py) _ Hr)].
Defined.

(** X18: registration is permanent.  Once a name is in the registry, whatever
    commands run afterwards it stays there with the same name, join time and
    activity flag, and a later [add_node] for it is refused. *)
Theorem registration_is_permanent {py : PyBuiltins} (cs : list command) (st st' : Ledger)
    (r : string) (n : Node.t) :
  nodes st !! r = Some n ->
  run st cs = Returns st' ->
  (exists n', nodes st' !! r = Some n' /\ same_identity n n') /\
  forall x now, add_node st' r x now = (false, st').
Proof.
  intros Hn Hr.
  assert (exists n', nodes st' !! r = Some n' /\ same_identity n n') as Hex.
  { revert Hr. apply (run_invariant
       (fun s => exists n', nodes s !! r = Some n' /\ same_identity n n'));
      [|exists n; auto using same_identity_refl].
    intros s c s' (n1 & Hn1 & Hi1) Hex. apply exec_registry in Hex as [_ Hc].
    assert (registry_kept (nodes s) (nodes s') ->
            exists n', nodes s' !! r = Some n' /\ same_identity n n') as Hkept.
    { intros [Hfwd _]. destruct (Hfwd r n1 Hn1) as (n2 & Hn2 & Hi2).
      exists n2. eauto using same_identity_trans. }
    destruct c as [r0 x now | | | |]; try (apply Hkept, Hc).
    destruct (nodes s !! r0) eqn:E.
    - rewrite Hc. eauto.
    - destruct Hc as [-> _]. exists n1. split; [|exact Hi1].
      rewrite lookup_insert_ne; [exact Hn1 | congruence]. }
  split; [exact Hex|]. intros x now. destruct Hex as (n' & Hn' & _).
  unfold add_node. now rewrite Hn'.
Qed.

Lemma registration_is_permanent_witness :
  add_node Demo.sealed_once "C1" 999%float (Demo.clock 30) = (false, Demo.sealed_once).
Proof.
  assert (nodes Demo.fresh !! "C1"
          = Some (Node.mk "C1" 200%float (Demo.clock 0) 0 0%float 0%float true)) as Hn
    by (vm_compute; reflexivity).
  assert (run (py := Demo.py) Demo.fresh Demo.session = Returns Demo.sealed_once) as Hr
    by (vm_compute; reflexivity).
  exact (proj2 (registration_is_permanent (py := Demo.py) Demo.session Demo.fresh
                  Demo.sealed_once "C1" _ Hn Hr) 999%float (Demo.clock 30)).
Defined.

(** ** Statistics and history *)

(** X19: in every reachable state the statistics count every registered
    account as active, and report the chain as valid. *)
Theorem stats_of_reachable_state {py : PyBuiltins} (st : Ledger) :
  reachable st ->
  Stats.active_nodes (get_blockchain_stats st)
  = Stats.total_nodes (get_blockchain_stats st) /\
  Stats.chain_valid (get_blockchain_stats st) = true.
Proof.
  intros Hr. split; [|exact (reachable_links_valid st Hr)].
  pose proof (reachable_registry_inv st Hr) as Hinv.
  unfold get_blockchain_stats. cbn [Stats.active_nodes Stats.total_nodes]. f_equal.
  rewrite <- length_map_to_list, <- (length_map snd (map_to_list (nodes st))). f_equal.
  assert (Forall (fun n => Node.is_active n = true)
                 (map snd (map_to_list (nodes st)))) as Hall.
  { apply Forall_forall. intros n Hin. apply list_elem_of_In, in_map_iff in Hin.
    destruct Hin as ([a n0] & <- & Hin).
    apply list_elem_of_In, elem_of_map_to_list in Hin.
    now destruct (Hinv a n0 Hin) as (_ & ? & _). }
  induction Hall as [|n l Hn Hl IH]; [reflexivity|].
  rewrite filter_cons_True by exact Hn. now rewrite IH.
Qed.

Section History.
Context {py : PyBuiltins}.

Lemma fold_left_snoc_map {A B : Type} (f : A -> B) (l : list A) (acc : list B) :
  fold_left (fun acc x => acc ++ [f x]) l acc = acc ++ map f l.
Proof.
  revert acc. induction l as [|x l IH]; intros acc; cbn [fold_left map].
  - now rewrite app_nil_r.
  - now rewrite IH, <- app_assoc.
Qed.

Lemma history_fold (c : list Block.t) (acc : list History.row) :
  fold_left
    (fun all_transactions block =>
       fold_left
         (fun acc transaction =>
            acc ++ [History.mk transaction (Block.index block) (Block.hash block)])
         (Block.transactions block) all_transactions)
    c acc
  = acc ++ flat_map (fun b => history_rows b (Block.transactions b)) c.
Proof.
  revert acc. induction c as [|b c IH]; intros acc; cbn [fold_left flat_map].
  - now rewrite app_nil_r.
  - rewrite IH, (fold_left_snoc_map (fun tx => History.mk tx (Block.index b) (Block.hash b))).
    now rewrite <- app_assoc.
Qed.

Lemma history_flat (st : Ledger) :
  get_transaction_history st
  = flat_map (fun b => history_rows b (Block.transactions b)) (chain st).
Proof. unfold get_transaction_history. now rewrite history_fold. Qed.

Lemma stats_totals_fold (c : list Block.t) (acc : float * Z) :
  snd (fold_left
         (fun totals block =>
            fold_left
              (fun acc transaction =>
                 ((fst acc + Transaction.zakat_amount transaction)%float, snd acc + 1))
              (Block.transactions block) totals)
         c acc)
  = snd acc
    + Z.of_nat (length (flat_map (fun b => history_rows b (Block.transactions b)) c)).
Proof.
  assert (forall (txs : list Transaction.t) (a : float * Z),
             snd (fold_left
                    (fun acc transaction =>
                       ((fst acc + Transaction.zakat_amount transaction)%float,
                        snd acc + 1)) txs a)
             = snd a + Z.of_nat (length txs)) as Hin.
  { induction txs as [|tx txs IH]; intros a; cbn [fold_left length]; [lia|].
    rewrite IH. cbn [snd]. lia. }
  revert acc. induction c as [|b c IH]; intros acc; cbn [fold_left flat_map length];
    [lia|].
  rewrite IH, Hin, length_app. unfold history_rows. rewrite length_map. lia.
Qed.

End History.

(** X20: the history lists sealed entries only, block by block.  A seal adds
    to it the entries that were pending, in order, then the reward entry, each
    tagged with the index and the stored hash of the new block; the rows it
    had stay in front, unchanged. *)
Theorem seal_extends_history {py : PyBuiltins} (fuel : nat) (st st' : Ledger)
    (m t1 t2 : string) :
  mine_pending_transactions fuel st m t1 t2 = Returns st' ->
  exists blk,
    last (chain st') = Some blk /\
    Block.index blk = Z.of_nat (length (chain st)) /\
    get_transaction_history st'
    = get_transaction_history st
      ++ history_rows blk (pending_transactions st ++ [reward_transaction m t1]).
Proof.
  intros Hm. apply mine_pending_chain in Hm as (latest & k & _ & _ & _ & Hc & _ & _).
  destruct (candidate_fields st latest m t1 t2 k) as (Hi & Ht & _).
  eexists. rewrite Hc, last_snoc. split; [reflexivity|]. split; [exact Hi|].
  rewrite !history_flat, Hc, flat_map_app. cbn [flat_map].
  now rewrite Ht, app_nil_r.
Qed.

Lemma seal_extends_history_witness :
  exists blk,
    last (chain Demo.sealed_once) = Some blk /\
    Block.index blk = 1 /\
    get_transaction_history Demo.sealed_once
    = get_transaction_history Demo.queued
      ++ history_rows blk
           (pending_transactions Demo.queued
            ++ [reward_transaction "C1" (Demo.clock 27)]).
Proof.
  apply (seal_extends_history (py := Demo.py) 4 Demo.queued Demo.sealed_once
           "C1" (Demo.clock 27) (Demo.clock 27)).
  vm_compute. reflexivity.
Defined.

(** X21: the statistics and the history agree: [total_transactions] is the
    number of rows of the history and [total_blocks] the length of the chain,
    for every ledger. *)
Theorem stats_count_the_history {py : PyBuiltins} (st : Ledger) :
  Stats.total_transactions (get_blockchain_stats st)
  = Z.of_nat (length (get_transaction_history st)) /\
  Stats.total_blocks (get_blockchain_stats st) = Z.of_nat (length (chain st)).
Proof.
  split; [|reflexivity]. unfold get_blockchain_stats, stats_totals.
  cbn [Stats.total_transactions]. now rewrite stats_totals_fold, history_flat.
Qed.

(** ** Entries waiting to be sealed *)

(** The three ways to enqueue an entry. *)
Lemma enqueue_shape (st : Ledger) (tx : Transaction.t) :
  add_transaction st tx = (false, st) \/
  add_transaction st tx = (true, set_pending (pending_transactions st ++ [tx]) st).
Proof. unfold add_transaction. destruct (negb _); auto. Qed.

(** X22: pending entries are invisible.  However a call of
    [create_transfer_transaction], [create_zakat_transaction] or
    [add_transaction] ends, the balances, the registry, the chain, the history
    and the statistics are those of before. *)
Theorem enqueue_changes_pending_only {py : PyBuiltins} (st : Ledger) :
  (forall f t a now, same_books st (snd (create_transfer_transaction st f t a now))) /\
  (forall f t now, same_books st (snd (create_zakat_transaction st f t now))) /\
  (forall tx, same_books st (snd (add_transaction st tx))).
Proof.
  assert (forall st',
             creator_roll_number st' = creator_roll_number st /\
             chain st' = chain st /\ balances st' = balances st /\
             nodes st' = nodes st ->
             same_books st st') as Hsame.
  { intros st' (Hcr & Hc & Hb & Hn). unfold same_books.
    repeat split; try assumption.
    - unfold get_transaction_history. now rewrite Hc.
    - unfold get_blockchain_stats, validate_chain. now rewrite Hc, Hb, Hn, Hcr. }
  split; [|split]; intros; apply Hsame.
  - unfold create_transfer_transaction. apply add_transaction_frame.
  - apply create_zakat_transaction_frame.
  - apply add_transaction_frame.
Qed.

(** X23: validation reserves nothing.  Enqueuing an entry changes the verdict
    of [validate_transaction] on no entry, so an entry accepted once is
    accepted again before the next seal, even when the two together cost more
    than the sender has. *)
Theorem validation_ignores_pending (st st1 : Ledger) (tx : Transaction.t) :
  add_transaction st tx = (true, st1) ->
  (forall tx', validate_transaction st1 tx' = validate_transaction st tx') /\
  add_transaction st1 tx
  = (true, set_pending (pending_transactions st ++ [tx; tx]) st).
Proof.
  intros Ha. apply add_transaction_true in Ha as [Hv ->].
  split; [reflexivity|]. unfold add_transaction.
  change (validate_transaction (set_pending _ st) tx) with (validate_transaction st tx).
  rewrite Hv. cbn [negb pending_transactions set_pending]. now rewrite <- app_assoc.
Qed.

Lemma validation_ignores_pending_witness :
  let tx := transfer_entry Demo.fresh "C1" "C2" 150%float (Demo.clock 1) in
  let st1 := set_pending [tx] Demo.fresh in
  add_transaction st1 tx = (true, set_pending [tx; tx] Demo.fresh) /\
  get_balance (fold_left update_balances_step [tx; tx] Demo.fresh) "C1" = (-110)%float.
Proof.
  intros tx st1. split.
  - apply (validation_ignores_pending Demo.fresh st1 tx). vm_compute. reflexivity.
  - vm_compute. reflexivity.
Defined.

(** ** Numbers that are not numbers *)

Lemma SFcompare_refl (a : spec_float) :
  a <> S754_nan -> SFcompare a a = Some Eq.
Proof.
  destruct a as [s|s| |s m e]; cbn; intros Hn; try congruence; try (now destruct s).
  destruct s; rewrite Z.compare_refl, Pos.compare_cont_refl; reflexivity.
Qed.

Lemma is_nan_Prim2SF (x : float) : is_nan x = true -> Prim2SF x = S754_nan.
Proof.
  unfold is_nan. intros Hx. apply negb_true_iff in Hx.
  rewrite FloatAxioms.eqb_spec in Hx. unfold SFeqb in Hx.
  destruct (Prim2SF x) as [s|s| |s m e] eqn:E; try reflexivity;
    rewrite SFcompare_refl in Hx by discriminate; discriminate.
Qed.

Lemma float_ltb_nan_r (x y : float) : is_nan y = true -> (x <? y)%float = false.
Proof.
  intros Hy. rewrite FloatAxioms.ltb_spec, (is_nan_Prim2SF y Hy).
  unfold SFltb. now destruct (Prim2SF x).
Qed.

(** X24: an entry whose amount plus levy is NaN passes validation for every
    sender and every balance, and [add_transaction] enqueues it. *)
Theorem nan_amount_is_accepted (st : Ledger) (tx : Transaction.t) :
  is_nan (Transaction.amount tx + Transaction.zakat_amount tx)%float = true ->
  validate_transaction st tx = true /\
  add_transaction st tx = (true, set_pending (pending_transactions st ++ [tx]) st).
Proof.
  intros Hn.
  assert (validate_transaction st tx = true) as Hv
    by (unfold validate_transaction; now rewrite float_ltb_nan_r).
  split; [exact Hv|]. unfold add_transaction. now rewrite Hv.
Qed.

Lemma nan_amount_is_accepted_witness :
  validate_transaction Demo.fresh
    (Transaction.mk "X" "C1" nan 0%float "gift" (Demo.clock 1)) = true.
Proof.
  apply (nan_amount_is_accepted Demo.fresh
           (Transaction.mk "X" "C1" nan 0%float "gift" (Demo.clock 1))).
  vm_compute. reflexivity.
Defined.

(** X25: an account whose balance is 0, and so every account the ledger has
    never seen, cannot pay zakat: [create_zakat_transaction] returns false and
    the ledger is as before; no account is created. *)
Theorem zakat_from_zero_balance_is_refused (st : Ledger) (f t now : string) :
  get_balance st f = 0%float ->
  create_zakat_transaction st f t now = (false, st).
Proof. intros Hb. unfold create_zakat_transaction. now rewrite Hb. Qed.

Lemma zakat_from_zero_balance_is_refused_witness :
  balances Demo.fresh !! "X" = None /\
  create_zakat_transaction Demo.fresh "X" Zakat_Fund (Demo.clock 1) = (false, Demo.fresh).
Proof.
  split; [vm_compute; reflexivity|].
  apply (zakat_from_zero_balance_is_refused Demo.fresh "X" Zakat_Fund (Demo.clock 1)).
  vm_compute. reflexivity.
Defined.

(** X26: the statistics and the history of a ledger just constructed, for any
    creator and starting balance: one block, one entry (the genesis entry,
    tagged with index 0), no levy collected, a valid chain, one registered
    account, which is active, and the creator's balance alone. *)
Theorem stats_of_new_ledger {py : PyBuiltins} (creator : string) (x : float)
    (t1 t2 t3 : string) :
  let st := new_ledger creator x t1 t2 t3 in
  let g := Block.init 0 [Transaction.mk "Genesis" creator 200%float 0%float "genesis" t2]
                      "0" creator t3 in
  get_blockchain_stats st
  = Stats.mk 1 1 0%float true (<[creator := x]> ∅) creator 1 1
             (<[creator := Node.mk creator x t1 0 0%float 0%float true]> ∅) /\
  get_transaction_history st
  = [History.mk (Transaction.mk "Genesis" creator 200%float 0%float "genesis" t2)
                0 (Block.hash g)].
Proof.
  intros st g.
  destruct (new_ledger_chain creator x t1 t2 t3) as (Hc & _ & Hcr).
  destruct (new_ledger_balance creator x t1 t2 t3) as (_ & Hb).
  pose proof (new_ledger_registry creator x t1 t2 t3) as Hn.
  fold st in Hc, Hcr, Hb, Hn. fold g in Hc. split.
  - unfold get_blockchain_stats, validate_chain, stats_totals.
    rewrite Hc, Hcr, Hb, Hn, !insert_empty, map_size_singleton, map_to_list_singleton.
    reflexivity.
  - unfold get_transaction_history. rewrite Hc. reflexivity.
Qed.

(** ** The properties above on closed examples *)

Lemma reward_only_seal_witness :
  pending_transactions Demo.fresh = [] /\
  get_balance Cases.reward_only "C2" = 10%float /\
  nodes Cases.reward_only = nodes Demo.fresh.
Proof.
  assert (pending_transactions Demo.fresh = []) as Hp by (vm_compute; reflexivity).
  assert (mine_pending_transactions (py := Demo.py) 2 Demo.fresh "C2"
            (Demo.clock 42) (Demo.clock 42) = Returns Cases.reward_only) as Hm
    by (vm_compute; reflexivity).
  destruct (reward_only_seal (py := Demo.py) 2 Demo.fresh Cases.reward_only "C2"
              (Demo.clock 42) (Demo.clock 42) Hp Hm) as (Hb & _ & Hn & _).
  split; [exact Hp|]. split; [|exact Hn]. rewrite Hb. vm_compute. reflexivity.
Defined.


Lemma sender_record_is_updated_witness :
  exists n',
    nodes (update_balances_step Cases.two_accounts Cases.transfer) !! "C1" = Some n' /\
    Node.balance n' = 145%float /\
    Node.transactions_count n' = 1 /\
    Node.total_zakat_paid n' = 5%float.
Proof.
  assert (nodes Cases.two_accounts !! "C1"
          = Some (Node.mk "C1" 200%float (Demo.clock 0) 0 0%float 0%float true)) as Hn
    by (vm_compute; reflexivity).
  destruct (sender_record_is_updated Cases.two_accounts Cases.transfer _
              eq_refl ltac:(discriminate) Hn) as [Hr Hb].
  change (Transaction.sender Cases.transfer) with "C1" in Hr, Hb.
  eexists. split; [exact Hr|]. cbn [Node.balance Node.transactions_count
    Node.total_zakat_paid]. rewrite Hb. vm_compute. repeat split.
Defined.


Lemma add_node_keeps_existing_balance_witness :
  get_balance Cases.late "C2" = 50%float /\
  fst (add_node Cases.late "C2" 200%float (Demo.clock 30)) = true /\
  get_balance (snd (add_node Cases.late "C2" 200%float (Demo.clock 30))) "C2" = 50%float.
Proof.
  assert (nodes Cases.late !! "C2" = None) as Hn by (vm_compute; reflexivity).
  assert (balances Cases.late !! "C2" = Some 50%float) as Hb by (vm_compute; reflexivity).
  destruct (add_node_keeps_existing_balance Cases.late "C2" 200%float 50%float
              (Demo.clock 30) Hn Hb) as (Hok & Hg & _).
  split; [unfold get_balance; now rewrite Hb|]. split; assumption.
Defined.

Lemma add_node_fresh_witness :
  fst (add_node Demo.fresh "C2" 100%float (Demo.clock 2)) = true /\
  get_balance Cases.two_accounts "C2" = 100%float /\
  get_balance Cases.two_accounts "C1" = get_balance Demo.fresh "C1".
Proof.
  assert (nodes Demo.fresh !! "C2" = None) as Hn by (vm_compute; reflexivity).
  assert (balances Demo.fresh !! "C2" = None) as Hb by (vm_compute; reflexivity).
  destruct (add_node_fresh Demo.fresh "C2" 100%float (Demo.clock 2) Hn Hb)
    as (Hok & Hg & Hother & _).
  split; [exact Hok|]. split; [exact Hg|]. apply Hother. discriminate.
Defined.

Lemma stats_of_reachable_state_witness :
  Stats.active_nodes (get_blockchain_stats (py := Demo.py) Demo.sealed_once) = 1 /\
  Stats.chain_valid (get_blockchain_stats (py := Demo.py) Demo.sealed_once) = true.
Proof.
  assert (reachable (py := Demo.py) Demo.sealed_once) as Hr.
  { exists "C1", 200%float, (Demo.clock 0), (Demo.clock 0), (Demo.clock 0), Demo.session.
    vm_compute. reflexivity. }
  destruct (stats_of_reachable_state (py := Demo.py) Demo.sealed_once Hr) as [Ha Hv].
  split; [|exact Hv]. rewrite Ha. vm_compute. reflexivity.
Defined.
